(** * Sabadell advisor workflow: routing conditions, bridge executors and
    the compliance revision cycle of [4.MAFAdvisorWorkflowEmail.py].

    The Python module wires five agent stages into a graph whose edges are
    guarded by four routing conditions and connected by five small executor
    functions.  This development embeds those functions as they are written
    (exceptions, [print] and the workflow context are explicit effects),
    the graph as [create_sabadell_advisor_workflow] builds it, and the
    engine's transition rule as the specification states it, and proves
    what they do on every input.

    Contents: Python strings; the structured output models; messages and
    effects; the conditions and executors; the graph and the engine; a
    JSON decoder for the models; the properties. *)

From Stdlib Require Import NArith Ascii String Bool Arith Lia List.
Import ListNotations.

Set Implicit Arguments.
Set Warnings "-register-all".

(** ** Python strings

    A Python [str] is a sequence of Unicode code points, so [len] and
    slicing count code points, not bytes. *)

Definition str := list N.

Definition NL : str := [10%N].

(** String literals of this file are UTF-8 encoded; [py] decodes one into
    the code points of the Python literal with the same spelling. *)
Fixpoint utf8_decode (bs : list N) : str :=
  match bs with
  | [] => []
  | b :: r =>
      if (b <? 128)%N then b :: utf8_decode r
      else if (b <? 224)%N then
        match r with
        | b1 :: r1 =>
            (N.land b 31 * 64 + N.land b1 63)%N :: utf8_decode r1
        | _ => [b]
        end
      else if (b <? 240)%N then
        match r with
        | b1 :: b2 :: r2 =>
            (N.land b 15 * 4096 + N.land b1 63 * 64 + N.land b2 63)%N
              :: utf8_decode r2
        | _ => [b]
        end
      else
        match r with
        | b1 :: b2 :: b3 :: r3 =>
            (N.land b 7 * 262144 + N.land b1 63 * 4096
             + N.land b2 63 * 64 + N.land b3 63)%N :: utf8_decode r3
        | _ => [b]
        end
  end.

Definition py (s : string) : str :=
  utf8_decode (map N_of_ascii (list_ascii_of_string s)).

Fixpoint str_eqb (a b : str) : bool :=
  match a, b with
  | [], [] => true
  | x :: a', y :: b' => (x =? y)%N && str_eqb a' b'
  | _, _ => false
  end.

(** [sep.join(parts)] *)
Fixpoint join (sep : str) (parts : list str) : str :=
  match parts with
  | [] => []
  | [p] => p
  | p :: rest => p ++ sep ++ join sep rest
  end.

(** [s[:n]] *)
Definition slice_to (n : nat) (s : str) : str := firstn n s.

(** ** Structured output models (the four [BaseModel] subclasses) *)

Module NeedProfile.
Record t := mk {
  product_type : str;
  customer_type : str;
  key_constraints : list str;
  missing_info : list str;
  structured_query : str
}.
End NeedProfile.

Module ClarityExplanation.
Record t := mk {
  summary : str;
  pros_cons : list str;
  cta : str;
  full_content : str
}.
End ClarityExplanation.

Module ComplianceReview.
Record t := mk {
  approved : bool;
  issues : list str;
  feedback : str;
  content : str
}.
End ComplianceReview.

Module FinalResponse.
Record t := mk {
  content : str
}.
End FinalResponse.

(** ** Messages of the agent framework *)

Inductive Role := USER | SYSTEM | ASSISTANT.

Module ChatMessage.
Record t := mk {
  role : Role;
  text : str
}.
End ChatMessage.

Record AgentExecutorRequest := {
  messages : list ChatMessage.t;
  should_respond : bool
}.

Record AgentRunResponse := {
  text : str
}.

Record AgentExecutorResponse := {
  executor_id : str;
  agent_run_response : AgentRunResponse
}.

(** The conditions take [message: Any]: the shapes an edge can carry. *)
Inductive Any :=
| PyNone
| PyStr (s : str)
| PyBool (b : bool)
| PyRequest (r : AgentExecutorRequest)
| PyResponse (r : AgentExecutorResponse).

(** ** Effects: exceptions, standard output and the workflow context *)

Inductive Exception :=
| ValidationError (msg : str).

(** [str(e)] as an f-string interpolates it. *)
Definition str_of_exception (e : Exception) : str :=
  match e with ValidationError msg => msg end.

Record World := {
  stdout : list str;
  ctx_sent : list AgentExecutorRequest;
  ctx_outputs : list str
}.

Definition Py (A : Type) : Type := World -> (Exception + A) * World.

Definition ret {A} (a : A) : Py A := fun w => (inr a, w).

Definition bind {A B} (c : Py A) (k : A -> Py B) : Py B :=
  fun w =>
    match c w with
    | (inr a, w') => k a w'
    | (inl e, w') => (inl e, w')
    end.

Notation "x <- c ;; k" := (bind c (fun x => k))
  (at level 61, c at next level, right associativity).
Notation "c ;;; k" := (bind c (fun _ => k))
  (at level 61, right associativity).

(** [try: body except Exception as e: handler(e)] *)
Definition try_except {A} (body : Py A) (handler : Exception -> Py A) : Py A :=
  fun w =>
    match body w with
    | (inr a, w') => (inr a, w')
    | (inl e, w') => handler e w'
    end.

(** A call that returns or raises without touching the world. *)
Definition call {A} (r : Exception + A) : Py A := fun w => (r, w).

Definition print (line : str) : Py unit :=
  fun w => (inr tt, {| stdout := stdout w ++ [line];
                       ctx_sent := ctx_sent w;
                       ctx_outputs := ctx_outputs w |}).

(** [await ctx.send_message(request)] *)
Definition send_message (request : AgentExecutorRequest) : Py unit :=
  fun w => (inr tt, {| stdout := stdout w;
                       ctx_sent := ctx_sent w ++ [request];
                       ctx_outputs := ctx_outputs w |}).

(** [await ctx.yield_output(output)] *)
Definition yield_output (output : str) : Py unit :=
  fun w => (inr tt, {| stdout := stdout w;
                       ctx_sent := ctx_sent w;
                       ctx_outputs := ctx_outputs w ++ [output] |}).

(** ** The decoding interface of the models

    [T.model_validate_json(text)] belongs to pydantic: it returns a [T] or
    raises [ValidationError].  The workflow code only depends on that
    interface, so it is a class here; the functions below are written
    against any implementation of it. *)

Class BaseModel (T : Type) := {
  model_validate_json : str -> Exception + T
}.

(** ** The executors of the graph

    Five [AgentExecutor]s, named as the variables that hold them, and the
    five decorated functions. *)

Inductive AgentId :=
| need_profiler
| sabadell_expert
| clarity_writer
| compliance_checker
| publisher.

Inductive FunctionId :=
| ToCopilotQuery
| ToClarityRequest
| ToClarityRevision
| RequestMoreInfo
| PublishFinalResponse.

Inductive Executor :=
| Agent (a : AgentId)
| Function (f : FunctionId).

(** The [id=] each [AgentExecutor] is created with. *)
Definition agent_id (a : AgentId) : str :=
  match a with
  | need_profiler => py "need_profiler"
  | sabadell_expert => py "sabadell_copilot_expert"
  | clarity_writer => py "clarity_writer"
  | compliance_checker => py "compliance_checker"
  | publisher => py "publisher"
  end.

Definition AgentId_eqb (a b : AgentId) : bool :=
  match a, b with
  | need_profiler, need_profiler
  | sabadell_expert, sabadell_expert
  | clarity_writer, clarity_writer
  | compliance_checker, compliance_checker
  | publisher, publisher => true
  | _, _ => false
  end.

Definition FunctionId_eqb (f g : FunctionId) : bool :=
  match f, g with
  | ToCopilotQuery, ToCopilotQuery
  | ToClarityRequest, ToClarityRequest
  | ToClarityRevision, ToClarityRevision
  | RequestMoreInfo, RequestMoreInfo
  | PublishFinalResponse, PublishFinalResponse => true
  | _, _ => false
  end.

Definition Executor_eqb (x y : Executor) : bool :=
  match x, y with
  | Agent a, Agent b => AgentId_eqb a b
  | Function f, Function g => FunctionId_eqb f g
  | _, _ => false
  end.

(** [isinstance(message, AgentExecutorResponse)] *)
Definition isinstance_AgentExecutorResponse (message : Any) : bool :=
  match message with
  | PyResponse _ => true
  | _ => false
  end.

(** The record of type [T] a message can be interpreted as: the decoded
    text of an [AgentExecutorResponse]; no other shape carries one. *)
Definition carried {T} {model : BaseModel T} (message : Any) : option T :=
  match message with
  | PyResponse response =>
      match model_validate_json (text (agent_run_response response)) with
      | inr record => Some record
      | inl _ => None
      end
  | _ => None
  end.

Definition empty_world : World :=
  {| stdout := []; ctx_sent := []; ctx_outputs := [] |}.

Definition response_with (id text : str) : AgentExecutorResponse :=
  {| executor_id := id; agent_run_response := {| text := text |} |}.

Section Workflow.

Context {NeedProfile_model : BaseModel NeedProfile.t}.
Context {ClarityExplanation_model : BaseModel ClarityExplanation.t}.
Context {ComplianceReview_model : BaseModel ComplianceReview.t}.
Context {FinalResponse_model : BaseModel FinalResponse.t}.

(** ** Conditional routing functions *)

Definition approved_condition (message : Any) : Py bool :=
  match message with
  | PyResponse response =>
      try_except
        (review <- call (model_validate_json (T := ComplianceReview.t)
                           (text (agent_run_response response))) ;;
         ret (ComplianceReview.approved review))
        (fun _ => ret false)
  | _ => ret true
  end.

Definition rejected_condition (message : Any) : Py bool :=
  match message with
  | PyResponse response =>
      try_except
        (review <- call (model_validate_json (T := ComplianceReview.t)
                           (text (agent_run_response response))) ;;
         ret (negb (ComplianceReview.approved review)))
        (fun _ => ret false)
  | _ => ret true
  end.

Definition missing_info_condition (message : Any) : Py bool :=
  match message with
  | PyResponse response =>
      try_except
        (profile <- call (model_validate_json (T := NeedProfile.t)
                            (text (agent_run_response response))) ;;
         ret (0 <? length (NeedProfile.missing_info profile)))
        (fun _ => ret false)
  | _ => ret false
  end.

Definition has_complete_info_condition (message : Any) : Py bool :=
  match message with
  | PyResponse response =>
      try_except
        (profile <- call (model_validate_json (T := NeedProfile.t)
                            (text (agent_run_response response))) ;;
         let has_info := length (NeedProfile.missing_info profile) =? 0 in
         ret has_info)
        (fun e =>
           print (py "Error parsing NeedProfile: " ++ str_of_exception e) ;;;
           ret false)
  | _ => ret false
  end.

(** ** Bridge executors (transformers between stages) *)

Definition to_copilot_query (response : AgentExecutorResponse) : Py unit :=
  profile <- call (model_validate_json (T := NeedProfile.t)
                     (text (agent_run_response response))) ;;
  let copilot_query :=
    ChatMessage.mk USER (NeedProfile.structured_query profile) in
  send_message {| messages := [copilot_query]; should_respond := true |}.

Definition clarity_request_header : str :=
  py "Reescribe esta información de productos bancarios en lenguaje claro para el cliente:"
  ++ NL ++ NL.

Definition to_clarity_request (response : AgentExecutorResponse) : Py unit :=
  let copilot_output := text (agent_run_response response) in
  let clarity_msg :=
    ChatMessage.mk USER (clarity_request_header ++ copilot_output) in
  send_message {| messages := [clarity_msg]; should_respond := true |}.

(** The bullet lines of a listing: a dash and a space before each item. *)
Definition bullets (items : list str) : list str :=
  map (fun item => py "- " ++ item) items.

Definition to_clarity_revision (response : AgentExecutorResponse) : Py unit :=
  review <- call (model_validate_json (T := ComplianceReview.t)
                    (text (agent_run_response response))) ;;
  let revision_msg :=
    ChatMessage.mk USER
      ((py "Por favor, revisa el contenido según este feedback de cumplimiento normativo:"
          ++ NL ++ NL
          ++ py "PROBLEMAS DETECTADOS:" ++ NL)
       ++ join NL (bullets (ComplianceReview.issues review))
       ++ (NL ++ NL
           ++ py "FEEDBACK:" ++ NL ++ ComplianceReview.feedback review
           ++ NL ++ NL
           ++ py "CONTENIDO ORIGINAL:" ++ NL
           ++ ComplianceReview.content review)) in
  send_message {| messages := [revision_msg]; should_respond := true |}.

Definition request_more_info (response : AgentExecutorResponse) : Py unit :=
  profile <- call (model_validate_json (T := NeedProfile.t)
                     (text (agent_run_response response))) ;;
  let missing_items := join NL (bullets (NeedProfile.missing_info profile)) in
  let output :=
    py "📋 **Necesitamos más información para ayudarte mejor:**" ++ NL ++ NL
    ++ missing_items ++ NL ++ NL
    ++ py "Por favor, proporciona estos datos para poder ofrecerte las mejores opciones del Banco Sabadell." in
  yield_output output.

Definition final_header : str :=
  py "✅ **RESPUESTA FINAL:**" ++ NL ++ NL.

Definition publish_final_response (response : AgentExecutorResponse)
  : Py unit :=
  try_except
    (final <- call (model_validate_json (T := FinalResponse.t)
                      (text (agent_run_response response))) ;;
     yield_output (final_header ++ FinalResponse.content final))
    (fun e =>
       print (py "⚠️  Warning: Could not parse Publisher output as JSON: "
              ++ str_of_exception e) ;;;
       print (py "Raw output: "
              ++ slice_to 500 (text (agent_run_response response))) ;;;
       yield_output (final_header ++ text (agent_run_response response))).

(** ** Workflow creation: the graph [create_sabadell_advisor_workflow] builds *)

Record Edge := {
  source : Executor;
  target : Executor;
  condition : option (Any -> Py bool)
}.

Definition add_edge (src tgt : Executor) : Edge :=
  {| source := src; target := tgt; condition := None |}.

Definition add_edge_if (src tgt : Executor) (cond : Any -> Py bool) : Edge :=
  {| source := src; target := tgt; condition := Some cond |}.

Definition start_executor : Executor := Agent need_profiler.

(** The iteration limit of a workflow built without [max_iterations=]:
    [WorkflowBuilder] is called with a name and a description only, so
    the agent framework's default applies. *)
Definition DEFAULT_MAX_ITERATIONS : nat := 100.

Definition workflow_edges : list Edge :=
  [ add_edge_if (Agent need_profiler) (Function RequestMoreInfo)
                missing_info_condition;
    add_edge_if (Agent need_profiler) (Function ToCopilotQuery)
                has_complete_info_condition;
    add_edge (Function ToCopilotQuery) (Agent sabadell_expert);
    add_edge (Agent sabadell_expert) (Function ToClarityRequest);
    add_edge (Function ToClarityRequest) (Agent clarity_writer);
    add_edge (Agent clarity_writer) (Agent compliance_checker);
    add_edge_if (Agent compliance_checker) (Agent publisher)
                approved_condition;
    add_edge (Agent publisher) (Function PublishFinalResponse);
    add_edge_if (Agent compliance_checker) (Function ToClarityRevision)
                rejected_condition;
    add_edge (Function ToClarityRevision) (Agent clarity_writer) ].

(** The function behind each decorated executor. *)
Definition run_function (f : FunctionId) : AgentExecutorResponse -> Py unit :=
  match f with
  | ToCopilotQuery => to_copilot_query
  | ToClarityRequest => to_clarity_request
  | ToClarityRevision => to_clarity_revision
  | RequestMoreInfo => request_more_info
  | PublishFinalResponse => publish_final_response
  end.

Definition is_ok {A} (r : Exception + A) : bool :=
  match r with inr _ => true | inl _ => false end.

(** The [response_format=] each agent is created with; the Copilot Studio
    agent has none. *)
Definition matches_response_format (a : AgentId) (payload : str) : bool :=
  match a with
  | need_profiler =>
      is_ok (model_validate_json (T := NeedProfile.t) payload)
  | sabadell_expert => true
  | clarity_writer =>
      is_ok (model_validate_json (T := ClarityExplanation.t) payload)
  | compliance_checker =>
      is_ok (model_validate_json (T := ComplianceReview.t) payload)
  | publisher =>
      is_ok (model_validate_json (T := FinalResponse.t) payload)
  end.

Section Engine.

(** The stage processors are opaque: each takes the messages it is handed
    and answers with a payload or fails; [M] is whatever the stages
    remember between calls. *)
Variable M : Type.
Variable process : AgentId -> M -> list ChatMessage.t -> M * option str.

(** The number of supersteps the runner may make. *)
Variable max_iterations : nat.

(** [NotConverged n] is the runner's
    [RuntimeError: Runner did not converge after n iterations]. *)
Inductive RunError :=
| SchemaViolation
| ProcessorFailure
| Timeout
| Cancelled
| NotConverged (iterations : nat).

(** [pending] holds the messages the next superstep delivers and
    [iteration] counts the supersteps made. *)
Record Run := {
  pending : list (Executor * Any);
  memory : M;
  world : World;
  history : list Executor;
  iteration : nat;
  error : option RunError
}.

Inductive Status :=
| Running
| Completed
| Failed (e : RunError).

(** Modelled from the spec: the engine that executes the graph is the
    agent framework's and is not part of the module.  A run ends when a
    terminal sink has emitted output, when no edge has fired, or with the
    error of the node that failed (sections 2, 4.4 and 7).  The spec
    leaves the loop unbounded; the framework's runner does not: it makes
    supersteps while fewer than [max_iterations] were made, and a run
    that still has messages when the limit is reached fails with
    [NotConverged]. *)
Definition status (r : Run) : Status :=
  match error r with
  | Some e => Failed e
  | None =>
      match ctx_outputs (world r), pending r with
      | [], _ :: _ =>
          if max_iterations <=? iteration r
          then Failed (NotConverged max_iterations)
          else Running
      | _, _ => Completed
      end
  end.

(** Modelled from the spec: the messages a stage processor is handed for
    what an edge delivers to it; the customer question enters as one
    user-role message (section 6). *)
Definition input_messages (msg : Any) : option (list ChatMessage.t) :=
  match msg with
  | PyStr question => Some [ChatMessage.mk USER question]
  | PyRequest request => Some (messages request)
  | PyResponse response =>
      Some [ChatMessage.mk ASSISTANT (text (agent_run_response response))]
  | _ => None
  end.

(** Modelled from the spec: one stage call (section 4.1).  A failing
    processor is a [ProcessorFailure]; a payload that does not parse into
    the record the stage must return is a [SchemaViolation]. *)
Definition run_agent (a : AgentId) (msg : Any) (mem : M)
  : M * (RunError + list Any) :=
  match input_messages msg with
  | None => (mem, inl ProcessorFailure)
  | Some msgs =>
      match process a mem msgs with
      | (mem', None) => (mem', inl ProcessorFailure)
      | (mem', Some payload) =>
          if matches_response_format a payload then
            (mem', inr [PyResponse (response_with (agent_id a) payload)])
          else (mem', inl SchemaViolation)
      end
  end.

(** Modelled from the spec: one call of a transform or sink (section 4.3).
    It runs on a fresh context; what it sent is what it hands on, and an
    exception it raises on malformed input is a [SchemaViolation]. *)
Definition run_executor_function (f : FunctionId) (msg : Any) (w : World)
  : World * (RunError + list Any) :=
  match msg with
  | PyResponse response =>
      let w0 := {| stdout := stdout w; ctx_sent := [];
                   ctx_outputs := ctx_outputs w |} in
      match run_function f response w0 with
      | (inr _, w1) =>
          ({| stdout := stdout w1; ctx_sent := [];
              ctx_outputs := ctx_outputs w1 |},
           inr (map PyRequest (ctx_sent w1)))
      | (inl _, w1) =>
          ({| stdout := stdout w1; ctx_sent := [];
              ctx_outputs := ctx_outputs w1 |},
           inl SchemaViolation)
      end
  | _ => (w, inl ProcessorFailure)
  end.

Definition out_edges (n : Executor) : list Edge :=
  filter (fun e => Executor_eqb (source e) n) workflow_edges.

(** Modelled from the spec: the transition rule of section 4.4.  For every
    outgoing edge, if its condition is absent or true of the output, the
    output is dispatched to the edge's target. *)
Fixpoint dispatch (edges : list Edge) (output : Any) (w : World)
  : list (Executor * Any) * World :=
  match edges with
  | [] => ([], w)
  | e :: rest =>
      let '(fires, w1) :=
        match condition e with
        | None => (true, w)
        | Some cond =>
            match cond output w with
            | (inr b, w') => (b, w')
            | (inl _, w') => (false, w')
            end
        end in
      let '(more, w2) := dispatch rest output w1 in
      ((if fires then [(target e, output)] else []) ++ more, w2)
  end.

Fixpoint dispatch_all (edges : list Edge) (outputs : list Any) (w : World)
  : list (Executor * Any) * World :=
  match outputs with
  | [] => ([], w)
  | o :: rest =>
      let '(ds, w1) := dispatch edges o w in
      let '(more, w2) := dispatch_all edges rest w1 in
      (ds ++ more, w2)
  end.

(** Modelled from the spec: one node completion.  The delivery is
    executed; a failure aborts the run, otherwise the node's output is
    dispatched along its outgoing edges and waits for the next
    superstep.  Nothing runs in a run that has failed. *)
Definition execute (r : Run) (delivery : Executor * Any) : Run :=
  match error r with
  | Some _ => r
  | None =>
      let '(n, msg) := delivery in
      let '(mem, w, result) :=
        match n with
        | Agent a =>
            let '(mem', res) := run_agent a msg (memory r) in
            (mem', world r, res)
        | Function f =>
            let '(w', res) := run_executor_function f msg (world r) in
            (memory r, w', res)
        end in
      match result with
      | inl e =>
          {| pending := pending r; memory := mem; world := w;
             history := history r ++ [n]; iteration := iteration r;
             error := Some e |}
      | inr outputs =>
          let '(ds, w') := dispatch_all (out_edges n) outputs w in
          {| pending := pending r ++ ds; memory := mem; world := w';
             history := history r ++ [n]; iteration := iteration r;
             error := None |}
      end
  end.

(** Modelled from the spec: one superstep of the runner.  Every pending
    message is delivered; what the executors hand on is pending for the
    next superstep. *)
Definition superstep (r : Run) : Run :=
  let r' :=
    fold_left execute (pending r)
              {| pending := []; memory := memory r; world := world r;
                 history := history r; iteration := iteration r;
                 error := error r |} in
  {| pending := pending r'; memory := memory r'; world := world r';
     history := history r'; iteration := S (iteration r');
     error := error r' |}.

(** A run that is not [Running] does not move. *)
Definition engine_step (r : Run) : Run :=
  match status r with
  | Running => superstep r
  | _ => r
  end.

Fixpoint run_steps (n : nat) (r : Run) : Run :=
  match n with
  | O => r
  | S n' => run_steps n' (engine_step r)
  end.

(** Modelled from the spec: a run starts at the start executor with the
    customer question (sections 2 and 6).  The start executor runs on
    the question before the first superstep. *)
Definition start_run (mem : M) (question : str) : Run :=
  execute {| pending := [];
             memory := mem;
             world := {| stdout := []; ctx_sent := []; ctx_outputs := [] |};
             history := [];
             iteration := 0;
             error := None |}
          (start_executor, PyStr question).

(** How many times an executor has run. *)
Definition visits (n : Executor) (r : Run) : nat :=
  length (filter (Executor_eqb n) (history r)).

(** ** Runs whose review is never approved *)

(** A stage always answers, with a payload of a given kind. *)
Definition always_answers (a : AgentId) (kind : str -> Prop) : Prop :=
  forall mem msgs, exists mem' payload,
    process a mem msgs = (mem', Some payload) /\ kind payload.

Definition complete_profile_payload (payload : str) : Prop :=
  exists profile,
    model_validate_json payload = inr profile /\
    NeedProfile.missing_info profile = [].

Definition clarity_payload (payload : str) : Prop :=
  exists explanation : ClarityExplanation.t,
    model_validate_json payload = inr explanation.

Definition rejected_review_payload (payload : str) : Prop :=
  exists review,
    model_validate_json payload = inr review /\
    ComplianceReview.approved review = false.

(** The executor that runs after [n] along the edges such a run takes. *)
Definition revision_successor (n : Executor) : Executor :=
  match n with
  | Agent need_profiler => Function ToCopilotQuery
  | Function ToCopilotQuery => Agent sabadell_expert
  | Agent sabadell_expert => Function ToClarityRequest
  | Function ToClarityRequest => Agent clarity_writer
  | Agent clarity_writer => Agent compliance_checker
  | Agent compliance_checker => Function ToClarityRevision
  | Function ToClarityRevision => Agent clarity_writer
  | other => other
  end.

(** The [k] executors that run from [n] on along those edges. *)
Fixpoint revision_trace (k : nat) (n : Executor) : list Executor :=
  match k with
  | O => []
  | S k' => n :: revision_trace k' (revision_successor n)
  end.

(** The single delivery such a run has pending. *)
Inductive on_revision_path : Executor -> Any -> Prop :=
| at_need_profiler question :
    on_revision_path (Agent need_profiler) (PyStr question)
| at_to_copilot_query response :
    complete_profile_payload (text (agent_run_response response)) ->
    on_revision_path (Function ToCopilotQuery) (PyResponse response)
| at_sabadell_expert request :
    on_revision_path (Agent sabadell_expert) (PyRequest request)
| at_to_clarity_request response :
    on_revision_path (Function ToClarityRequest) (PyResponse response)
| at_clarity_writer request :
    on_revision_path (Agent clarity_writer) (PyRequest request)
| at_compliance_checker response :
    on_revision_path (Agent compliance_checker) (PyResponse response)
| at_to_clarity_revision response :
    rejected_review_payload (text (agent_run_response response)) ->
    on_revision_path (Function ToClarityRevision) (PyResponse response).

(** A run that is at executor [n] of that path: one delivery pending, no
    error, nothing yielded. *)
Definition looping_at (n : Executor) (r : Run) : Prop :=
  error r = None /\
  ctx_outputs (world r) = [] /\
  exists msg, pending r = [(n, msg)] /\ on_revision_path n msg.

End Engine.

End Workflow.


(** ** A JSON decoder implementing the [BaseModel] interface

    An executable implementation of the interface: the RFC 8259 grammar
    over code points, then a check of the decoded object against the
    fields of the model.  As in pydantic, unknown keys are ignored and the
    last occurrence of a repeated key wins.  A [bool] field takes the JSON
    literals [true] and [false] only, a [str] field a JSON string, a
    [list[str]] field an array of strings. *)

Module Json.

Inductive t :=
| Null
| Bool (b : bool)
| Number (lexeme : str)
| String (s : str)
| Array (items : list t)
| Object (members : list (str * t)).

Local Open Scope N_scope.

Definition is_ws (c : N) : bool :=
  (c =? 32) || (c =? 9) || (c =? 10) || (c =? 13).

Definition is_digit (c : N) : bool := (48 <=? c) && (c <=? 57).

Fixpoint skip_ws (s : str) : str :=
  match s with
  | c :: r => if is_ws c then skip_ws r else s
  | [] => []
  end.

Fixpoint strip_prefix (p s : str) : option str :=
  match p, s with
  | [], _ => Some s
  | a :: p', b :: s' => if a =? b then strip_prefix p' s' else None
  | _ :: _, [] => None
  end.

Definition hex_digit (c : N) : option N :=
  if is_digit c then Some (c - 48)
  else if (97 <=? c) && (c <=? 102) then Some (c - 87)
  else if (65 <=? c) && (c <=? 70) then Some (c - 55)
  else None.

Definition hex4 (a b c d : N) : option N :=
  match hex_digit a, hex_digit b, hex_digit c, hex_digit d with
  | Some x, Some y, Some z, Some w => Some (x * 4096 + y * 256 + z * 16 + w)
  | _, _, _, _ => None
  end.

(** The character a one-letter escape stands for. *)
Definition simple_escape (e : N) : option N :=
  if e =? 34 then Some 34          (* quote *)
  else if e =? 92 then Some 92     (* backslash *)
  else if e =? 47 then Some 47     (* slash *)
  else if e =? 98 then Some 8      (* b: backspace *)
  else if e =? 102 then Some 12    (* f: form feed *)
  else if e =? 110 then Some 10    (* n: line feed *)
  else if e =? 114 then Some 13    (* r: carriage return *)
  else if e =? 116 then Some 9     (* t: tab *)
  else None.

Definition push (c : N) (r : option (str * str)) : option (str * str) :=
  match r with
  | Some (body, rest) => Some (c :: body, rest)
  | None => None
  end.

(** The characters of a string up to its closing quote, and what follows
    it; the opening quote has been read. *)
Fixpoint string_body (s : str) : option (str * str) :=
  match s with
  | [] => None
  | c :: r =>
      if c =? 34 then Some ([], r)
      else if c =? 92 then
        match r with
        | [] => None
        | e :: r1 =>
            if e =? 117 then
              match r1 with
              | h1 :: h2 :: h3 :: h4 :: r2 =>
                  match hex4 h1 h2 h3 h4 with
                  | None => None
                  | Some hi =>
                      if (55296 <=? hi) && (hi <=? 56319) then
                        match r2 with
                        | b :: u :: l1 :: l2 :: l3 :: l4 :: r3 =>
                            if (b =? 92) && (u =? 117) then
                              match hex4 l1 l2 l3 l4 with
                              | None => None
                              | Some lo =>
                                  if (56320 <=? lo) && (lo <=? 57343) then
                                    push (65536 + (hi - 55296) * 1024
                                          + (lo - 56320))
                                         (string_body r3)
                                  else None
                              end
                            else None
                        | _ => None
                        end
                      else if (56320 <=? hi) && (hi <=? 57343) then None
                      else push hi (string_body r2)
                  end
              | _ => None
              end
            else
              match simple_escape e with
              | Some c' => push c' (string_body r1)
              | None => None
              end
        end
      else if c <? 32 then None
      else push c (string_body r)
  end.

Fixpoint span_digits (s : str) : str * str :=
  match s with
  | c :: r =>
      if is_digit c then let (d, rest) := span_digits r in (c :: d, rest)
      else ([], s)
  | [] => ([], [])
  end.

(** [int frac? exp?] without the sign. *)
Definition unsigned_number (s : str) : option (str * str) :=
  let (int, r) := span_digits s in
  match int with
  | [] => None
  | d :: more =>
      if (d =? 48) && negb (Nat.eqb (length more) 0) then None
      else
        let frac :=
          match r with
          | c :: r1 =>
              if c =? 46 then
                let (f, r2) := span_digits r1 in
                match f with
                | [] => None
                | _ => Some (c :: f, r2)
                end
              else Some ([], r)
          | [] => Some ([], r)
          end in
        match frac with
        | None => None
        | Some (f, r2) =>
            match r2 with
            | e :: r3 =>
                if (e =? 101) || (e =? 69) then
                  let (sign, r4) :=
                    match r3 with
                    | sg :: r4 =>
                        if (sg =? 43) || (sg =? 45) then ([sg], r4)
                        else ([], r3)
                    | [] => ([], r3)
                    end in
                  let (x, r5) := span_digits r4 in
                  match x with
                  | [] => None
                  | _ => Some ((int ++ f ++ e :: sign ++ x)%list, r5)
                  end
                else Some ((int ++ f)%list, r2)
            | [] => Some ((int ++ f)%list, r2)
            end
        end
  end.

Definition number (s : str) : option (str * str) :=
  match s with
  | c :: r =>
      if c =? 45 then
        match unsigned_number r with
        | Some (lex, rest) => Some (c :: lex, rest)
        | None => None
        end
      else unsigned_number s
  | [] => None
  end.


(** One JSON value at the head of [s], and the rest of the text.  Every
    recursive call spends one unit of [fuel]; [loads] gives enough of it
    for the length of the text. *)
Fixpoint value (fuel : nat) (s : str) : option (t * str) :=
  match fuel with
  | O => None
  | S fuel' =>
      match skip_ws s with
      | [] => None
      | c :: r =>
          if c =? 34 then
            match string_body r with
            | Some (body, rest) => Some (String body, rest)
            | None => None
            end
          else if c =? 91 then
            match skip_ws r with
            | c1 :: r1 =>
                if c1 =? 93 then Some (Array [], r1)
                else
                  match elements fuel' r with
                  | Some (items, rest) => Some (Array items, rest)
                  | None => None
                  end
            | [] => None
            end
          else if c =? 123 then
            match skip_ws r with
            | c1 :: r1 =>
                if c1 =? 125 then Some (Object [], r1)
                else
                  match members fuel' r with
                  | Some (ms, rest) => Some (Object ms, rest)
                  | None => None
                  end
            | [] => None
            end
          else if c =? 116 then
            match strip_prefix (py "rue") r with
            | Some rest => Some (Bool true, rest)
            | None => None
            end
          else if c =? 102 then
            match strip_prefix (py "alse") r with
            | Some rest => Some (Bool false, rest)
            | None => None
            end
          else if c =? 110 then
            match strip_prefix (py "ull") r with
            | Some rest => Some (Null, rest)
            | None => None
            end
          else
            match number (c :: r) with
            | Some (lex, rest) => Some (Number lex, rest)
            | None => None
            end
      end
  end

(** The items of an array after its opening bracket: values separated by
    commas, up to the closing bracket. *)
with elements (fuel : nat) (s : str) : option (list t * str) :=
  match fuel with
  | O => None
  | S fuel' =>
      match value fuel' s with
      | None => None
      | Some (v, r) =>
          match skip_ws r with
          | c :: r1 =>
              if c =? 44 then
                match elements fuel' r1 with
                | Some (vs, rest) => Some (v :: vs, rest)
                | None => None
                end
              else if c =? 93 then Some ([v], r1)
              else None
          | [] => None
          end
      end
  end

(** The members of an object after its opening brace: key, colon, value,
    separated by commas, up to the closing brace. *)
with members (fuel : nat) (s : str) : option (list (str * t) * str) :=
  match fuel with
  | O => None
  | S fuel' =>
      match skip_ws s with
      | q :: r =>
          if q =? 34 then
            match string_body r with
            | None => None
            | Some (key, r1) =>
                match skip_ws r1 with
                | colon :: r2 =>
                    if colon =? 58 then
                      match value fuel' r2 with
                      | None => None
                      | Some (v, r3) =>
                          match skip_ws r3 with
                          | c :: r4 =>
                              if c =? 44 then
                                match members fuel' r4 with
                                | Some (ms, rest) => Some ((key, v) :: ms, rest)
                                | None => None
                                end
                              else if c =? 125 then Some ([(key, v)], r4)
                              else None
                          | [] => None
                          end
                      end
                    else None
                | [] => None
                end
            end
          else None
      | [] => None
      end
  end.

(** A whole text: one value, then only white space. *)
Definition loads (s : str) : option t :=
  match value (2 * length s + 2) s with
  | Some (v, rest) =>
      match skip_ws rest with
      | [] => Some v
      | _ :: _ => None
      end
  | None => None
  end.

(** The value of key [k]: the last member with that key. *)
Fixpoint get (k : str) (ms : list (str * t)) : option t :=
  match ms with
  | [] => None
  | (k', v) :: rest =>
      match get k rest with
      | Some v' => Some v'
      | None => if str_eqb k k' then Some v else None
      end
  end.

Definition as_str (j : t) : option str :=
  match j with String s => Some s | _ => None end.

Definition as_bool (j : t) : option bool :=
  match j with Bool b => Some b | _ => None end.

Fixpoint all_str (items : list t) : option (list str) :=
  match items with
  | [] => Some []
  | String s :: rest =>
      match all_str rest with
      | Some l => Some (s :: l)
      | None => None
      end
  | _ :: _ => None
  end.

Definition as_list_str (j : t) : option (list str) :=
  match j with Array items => all_str items | _ => None end.

Definition field {A} (k : string) (conv : t -> option A)
           (ms : list (str * t)) : option A :=
  match get (py k) ms with
  | Some v => conv v
  | None => None
  end.

End Json.

Definition opt_bind {A B} (o : option A) (k : A -> option B) : option B :=
  match o with Some a => k a | None => None end.

Notation "x <-? o ;; k" := (opt_bind o (fun x => k))
  (at level 61, o at next level, right associativity).

Definition NeedProfile_of_json (j : Json.t) : option NeedProfile.t :=
  match j with
  | Json.Object ms =>
      pt <-? Json.field "product_type" Json.as_str ms ;;
      ct <-? Json.field "customer_type" Json.as_str ms ;;
      kc <-? Json.field "key_constraints" Json.as_list_str ms ;;
      mi <-? Json.field "missing_info" Json.as_list_str ms ;;
      sq <-? Json.field "structured_query" Json.as_str ms ;;
      Some (NeedProfile.mk pt ct kc mi sq)
  | _ => None
  end.

Definition ClarityExplanation_of_json (j : Json.t)
  : option ClarityExplanation.t :=
  match j with
  | Json.Object ms =>
      su <-? Json.field "summary" Json.as_str ms ;;
      pc <-? Json.field "pros_cons" Json.as_list_str ms ;;
      ca <-? Json.field "cta" Json.as_str ms ;;
      fc <-? Json.field "full_content" Json.as_str ms ;;
      Some (ClarityExplanation.mk su pc ca fc)
  | _ => None
  end.

Definition ComplianceReview_of_json (j : Json.t) : option ComplianceReview.t :=
  match j with
  | Json.Object ms =>
      ap <-? Json.field "approved" Json.as_bool ms ;;
      iss <-? Json.field "issues" Json.as_list_str ms ;;
      fb <-? Json.field "feedback" Json.as_str ms ;;
      co <-? Json.field "content" Json.as_str ms ;;
      Some (ComplianceReview.mk ap iss fb co)
  | _ => None
  end.

Definition FinalResponse_of_json (j : Json.t) : option FinalResponse.t :=
  match j with
  | Json.Object ms =>
      co <-? Json.field "content" Json.as_str ms ;;
      Some (FinalResponse.mk co)
  | _ => None
  end.

(** Decode, then validate; either failure raises [ValidationError]. *)
Definition decode_with {T} (of_json : Json.t -> option T) (text : str)
  : Exception + T :=
  match Json.loads text with
  | None => inl (ValidationError (py "Invalid JSON"))
  | Some j =>
      match of_json j with
      | Some r => inr r
      | None => inl (ValidationError (py "validation error"))
      end
  end.

#[export] Instance NeedProfile_json : BaseModel NeedProfile.t :=
  {| model_validate_json := decode_with NeedProfile_of_json |}.

#[export] Instance ClarityExplanation_json : BaseModel ClarityExplanation.t :=
  {| model_validate_json := decode_with ClarityExplanation_of_json |}.

#[export] Instance ComplianceReview_json : BaseModel ComplianceReview.t :=
  {| model_validate_json := decode_with ComplianceReview_of_json |}.

#[export] Instance FinalResponse_json : BaseModel FinalResponse.t :=
  {| model_validate_json := decode_with FinalResponse_of_json |}.

(** The JSON object with the five fields of a profile. *)
Definition NeedProfile_to_json (p : NeedProfile.t) : Json.t :=
  Json.Object
    [ (py "product_type", Json.String (NeedProfile.product_type p));
      (py "customer_type", Json.String (NeedProfile.customer_type p));
      (py "key_constraints",
       Json.Array (map Json.String (NeedProfile.key_constraints p)));
      (py "missing_info",
       Json.Array (map Json.String (NeedProfile.missing_info p)));
      (py "structured_query", Json.String (NeedProfile.structured_query p)) ].

(** The invariant the data model is described with: an empty
    [missing_info] comes with a non-empty [structured_query]. *)
Definition query_present_when_complete (p : NeedProfile.t) : Prop :=
  NeedProfile.missing_info p = [] -> NeedProfile.structured_query p <> [].

(** JSON texts in examples are written with an apostrophe where the text
    has a double quote. *)
Definition json_text (s : string) : str :=
  map (fun c => if (c =? 39)%N then 34%N else c) (py s).


(** Stages that always answer the same payloads, for concrete runs. *)
Definition constant_stages (profile expert clarity review final : str)
  : AgentId -> unit -> list ChatMessage.t -> unit * option str :=
  fun a _ _ =>
    (tt, Some match a with
              | need_profiler => profile
              | sabadell_expert => expert
              | clarity_writer => clarity
              | compliance_checker => review
              | publisher => final
              end).

Definition complete_profile_text : str :=
  json_text "{'product_type': 'hipoteca', 'customer_type': 'nuevo', 'key_constraints': ['tipo fijo', 'ingresos 3000€'], 'missing_info': [], 'structured_query': 'Cliente nuevo busca hipoteca a tipo fijo.'}".

Definition incomplete_profile_text : str :=
  json_text "{'product_type': 'sin especificar', 'customer_type': 'sin especificar', 'key_constraints': [], 'missing_info': ['qué tipo de producto o servicio necesitas'], 'structured_query': ''}".

Definition clarity_text : str :=
  json_text "{'summary': 'Resumen', 'pros_cons': ['a', 'b'], 'cta': 'Visita la web', 'full_content': '**Hipotecas**'}".

Definition approved_review_text : str :=
  json_text "{'approved': true, 'issues': [], 'feedback': '', 'content': '**Hipotecas**'}".

Definition rejected_review_text : str :=
  json_text "{'approved': false, 'issues': ['falta disclaimer', 'lenguaje prescriptivo'], 'feedback': 'Añade el disclaimer', 'content': '**Hipotecas**'}".

Definition final_text : str :=
  json_text "{'content': '## Hipotecas a tipo fijo'}".


Definition complete_profile : NeedProfile.t :=
  NeedProfile.mk (py "hipoteca") (py "nuevo")
                 [py "tipo fijo"; py "ingresos 3000€"] []
                 (py "Cliente nuevo busca hipoteca a tipo fijo.").

Definition rejected_review : ComplianceReview.t :=
  ComplianceReview.mk false
                      [py "falta disclaimer"; py "lenguaje prescriptivo"]
                      (py "Añade el disclaimer") (py "**Hipotecas**").

(** A profile with nothing missing and no query. *)
Definition empty_query_profile_text : str :=
  json_text "{'product_type': 'hipoteca', 'customer_type': 'nuevo', 'key_constraints': [], 'missing_info': [], 'structured_query': ''}".

Definition empty_query_profile : NeedProfile.t :=
  NeedProfile.mk (py "hipoteca") (py "nuevo") [] [] [].

Definition complete_profile_response : AgentExecutorResponse :=
  response_with (py "need_profiler") complete_profile_text.

Definition rejected_review_response : AgentExecutorResponse :=
  response_with (py "compliance_checker") rejected_review_text.

(** A stage answer that is not JSON. *)
Definition unparsed_response : AgentExecutorResponse :=
  response_with (py "publisher") (py "Lo siento, no puedo ayudarte con eso.").

(** The stages of a run in which every review is a rejection. *)
Definition rejecting_stages
  : AgentId -> unit -> list ChatMessage.t -> unit * option str :=
  constant_stages complete_profile_text (py "Hipoteca Fija: TIN 2,5%")
                  clarity_text rejected_review_text final_text.

(** The stages of a run whose first review is approved. *)
Definition approving_stages
  : AgentId -> unit -> list ChatMessage.t -> unit * option str :=
  constant_stages complete_profile_text (py "Hipoteca Fija: TIN 2,5%")
                  clarity_text approved_review_text final_text.

(** The stages of a run whose profile lacks information. *)
Definition asking_stages
  : AgentId -> unit -> list ChatMessage.t -> unit * option str :=
  constant_stages incomplete_profile_text (py "Hipoteca Fija: TIN 2,5%")
                  clarity_text approved_review_text final_text.

(** Stages that remember how many reviews were made: the first review is
    a rejection, the later ones approve. *)
Definition second_pass_stages
  : AgentId -> nat -> list ChatMessage.t -> nat * option str :=
  fun a reviews _ =>
    match a with
    | compliance_checker =>
        (S reviews,
         Some (if reviews =? 0 then rejected_review_text
               else approved_review_text))
    | other => (reviews, snd (approving_stages other tt []))
    end.

(** ** Vocabulary for the further properties *)

(** [part in whole] and [whole.endswith(part)] *)
Definition contains (part whole : str) : Prop :=
  exists before after, whole = before ++ part ++ after.

Definition ends_with (part whole : str) : Prop :=
  exists before, whole = before ++ part.

(** How many line feeds a text holds. *)
Definition line_feeds (s : str) : nat := count_occ N.eq_dec s 10%N.

Section Routing.

Context {NeedProfile_model : BaseModel NeedProfile.t}.
Context {ComplianceReview_model : BaseModel ComplianceReview.t}.
Context {ClarityExplanation_model : BaseModel ClarityExplanation.t}.
Context {FinalResponse_model : BaseModel FinalResponse.t}.

(** An edge added without [condition=] takes every message; one added
    with a condition takes the messages the condition returns [True] on. *)
Definition edge_enabled (e : Edge) (message : Any) (w : World) : bool :=
  match condition e with
  | None => true
  | Some cond =>
      match fst (cond message w) with
      | inr b => b
      | inl _ => false
      end
  end.

(** The executors a message that leaves [n] is routed to. *)
Definition enabled_targets (n : Executor) (message : Any) (w : World)
  : list Executor :=
  map target (filter (fun e => edge_enabled e message w) (out_edges n)).

(** The edges that enter [n], as many times as they were added. *)
Definition in_edges (n : Executor) : list Edge :=
  filter (fun e => Executor_eqb (target e) n) workflow_edges.

(** The edge from the Compliance Checker to the publisher. *)
Definition publisher_edge : Edge :=
  add_edge_if (Agent compliance_checker) (Agent publisher) approved_condition.

(** The graph as a relation: some [add_edge] call goes from [n] to [m]. *)
Definition edge_between (n m : Executor) : Prop :=
  exists e, In e workflow_edges /\ source e = n /\ target e = m.

(** A non-empty walk along the edges. *)
Inductive path : Executor -> Executor -> Prop :=
| path_edge n m : edge_between n m -> path n m
| path_step n x m : edge_between n x -> path x m -> path n m.

End Routing.

(** The position of an executor along the graph; the three executors of
    the revision cycle share one. *)
Definition graph_rank (n : Executor) : nat :=
  match n with
  | Agent need_profiler => 0
  | Function RequestMoreInfo => 1
  | Function ToCopilotQuery => 1
  | Agent sabadell_expert => 2
  | Function ToClarityRequest => 3
  | Agent clarity_writer => 4
  | Agent compliance_checker => 4
  | Function ToClarityRevision => 4
  | Agent publisher => 5
  | Function PublishFinalResponse => 6
  end.

Definition in_revision_cycle (n : Executor) : bool :=
  match n with
  | Agent clarity_writer
  | Agent compliance_checker
  | Function ToClarityRevision => true
  | _ => false
  end.

(** The JSON objects with the fields of the other three models. *)
Definition ClarityExplanation_to_json (c : ClarityExplanation.t) : Json.t :=
  Json.Object
    [ (py "summary", Json.String (ClarityExplanation.summary c));
      (py "pros_cons",
       Json.Array (map Json.String (ClarityExplanation.pros_cons c)));
      (py "cta", Json.String (ClarityExplanation.cta c));
      (py "full_content", Json.String (ClarityExplanation.full_content c)) ].

Definition ComplianceReview_to_json (r : ComplianceReview.t) : Json.t :=
  Json.Object
    [ (py "approved", Json.Bool (ComplianceReview.approved r));
      (py "issues", Json.Array (map Json.String (ComplianceReview.issues r)));
      (py "feedback", Json.String (ComplianceReview.feedback r));
      (py "content", Json.String (ComplianceReview.content r)) ].

Definition FinalResponse_to_json (f : FinalResponse.t) : Json.t :=
  Json.Object [ (py "content", Json.String (FinalResponse.content f)) ].

Definition incomplete_profile : NeedProfile.t :=
  NeedProfile.mk (py "sin especificar") (py "sin especificar") []
                 [py "qué tipo de producto o servicio necesitas"] [].

Definition incomplete_profile_response : AgentExecutorResponse :=
  response_with (py "need_profiler") incomplete_profile_text.

Definition approved_review : ComplianceReview.t :=
  ComplianceReview.mk true [] [] (py "**Hipotecas**").

Definition approved_review_response : AgentExecutorResponse :=
  response_with (py "compliance_checker") approved_review_text.

(** A profile that misses two things. *)
Definition two_missing_profile_text : str :=
  json_text "{'product_type': 'sin especificar', 'customer_type': 'nuevo', 'key_constraints': [], 'missing_info': ['qué tipo de producto necesitas', 'para qué importe'], 'structured_query': ''}".

Definition two_missing_profile : NeedProfile.t :=
  NeedProfile.mk (py "sin especificar") (py "nuevo") []
                 [py "qué tipo de producto necesitas"; py "para qué importe"]
                 [].

Definition two_missing_profile_response : AgentExecutorResponse :=
  response_with (py "need_profiler") two_missing_profile_text.

(** * Properties *)

Section ConditionProperties.

Context {NeedProfile_model : BaseModel NeedProfile.t}.
Context {ComplianceReview_model : BaseModel ComplianceReview.t}.

(** ** What each condition computes on a response *)

Lemma approved_condition_response (response : AgentExecutorResponse) w :
  approved_condition (PyResponse response) w =
  (inr match carried (T := ComplianceReview.t) (PyResponse response) with
       | Some review => ComplianceReview.approved review
       | None => false
       end, w).
Proof.
  unfold approved_condition, carried, try_except, bind, call, ret.
  destruct (model_validate_json _); reflexivity.
Qed.

Lemma rejected_condition_response (response : AgentExecutorResponse) w :
  rejected_condition (PyResponse response) w =
  (inr match carried (T := ComplianceReview.t) (PyResponse response) with
       | Some review => negb (ComplianceReview.approved review)
       | None => false
       end, w).
Proof.
  unfold rejected_condition, carried, try_except, bind, call, ret.
  destruct (model_validate_json _); reflexivity.
Qed.

Lemma missing_info_condition_response (response : AgentExecutorResponse) w :
  missing_info_condition (PyResponse response) w =
  (inr match carried (T := NeedProfile.t) (PyResponse response) with
       | Some profile => 0 <? length (NeedProfile.missing_info profile)
       | None => false
       end, w).
Proof.
  unfold missing_info_condition, carried, try_except, bind, call, ret.
  destruct (model_validate_json _); reflexivity.
Qed.

Lemma has_complete_info_condition_parsed
      (response : AgentExecutorResponse) profile w :
  model_validate_json (text (agent_run_response response)) = inr profile ->
  has_complete_info_condition (PyResponse response) w =
  (inr (length (NeedProfile.missing_info profile) =? 0), w).
Proof.
  intros Hp.
  unfold has_complete_info_condition, try_except, bind, call, ret.
  rewrite Hp. reflexivity.
Qed.

Lemma has_complete_info_condition_unparsed
      (response : AgentExecutorResponse) e w :
  model_validate_json (T := NeedProfile.t)
    (text (agent_run_response response)) = inl e ->
  has_complete_info_condition (PyResponse response) w =
  (inr false,
   {| stdout := stdout w
                ++ [py "Error parsing NeedProfile: " ++ str_of_exception e];
      ctx_sent := ctx_sent w;
      ctx_outputs := ctx_outputs w |}).
Proof.
  intros Hp.
  unfold has_complete_info_condition, try_except, bind, call, ret, print.
  rewrite Hp. reflexivity.
Qed.

Lemma carried_response {T} {model : BaseModel T}
      (response : AgentExecutorResponse) (record : T) :
  model_validate_json (text (agent_run_response response)) = inr record ->
  carried (PyResponse response) = Some record.
Proof. intros Hp. unfold carried. rewrite Hp. reflexivity. Qed.

Lemma length_zero_iff_nil {A} (l : list A) : (length l =? 0) = true <-> l = [].
Proof. destruct l; simpl; split; congruence. Qed.

Lemma positive_length_negb {A} (l : list A) :
  (0 <? length l) = negb (length l =? 0).
Proof. destruct l; reflexivity. Qed.

(** C1, as amended.  The fail-closed default is that of a response whose
    text does not decode: [missing_info_condition] and
    [has_complete_info_condition] answer [False] on every input that
    carries no NeedProfile, and [approved_condition] answers [False] on
    every AgentExecutorResponse that carries no ComplianceReview; none of
    them raises.  On an input that is not an AgentExecutorResponse
    [approved_condition] answers [True]. *)
Theorem conditions_fail_closed (message : Any) (w : World) :
  (carried (T := NeedProfile.t) message = None ->
   missing_info_condition message w = (inr false, w) /\
   exists w', has_complete_info_condition message w = (inr false, w')) /\
  (carried (T := ComplianceReview.t) message = None ->
   approved_condition message w
   = (inr (negb (isinstance_AgentExecutorResponse message)), w)).
Proof.
  split.
  - intros Hnone. destruct message as [ | s | b | request | response ];
      try (split; [reflexivity | eexists; reflexivity]).
    split.
    + rewrite missing_info_condition_response, Hnone. reflexivity.
    + unfold carried in Hnone.
      destruct (model_validate_json (text (agent_run_response response)))
        as [e | profile] eqn:Hp; [ | discriminate].
      eexists. apply has_complete_info_condition_unparsed with (e := e).
      exact Hp.
  - intros Hnone. destruct message as [ | s | b | request | response ];
      try reflexivity.
    rewrite approved_condition_response, Hnone. reflexivity.
Qed.

(** C2, as amended.  On every AgentExecutorResponse at most one of
    [approved_condition] and [rejected_condition] answers [True], and on
    every input at most one of [missing_info_condition] and
    [has_complete_info_condition] does. *)
Theorem condition_pairs_exclusive
        (response : AgentExecutorResponse) (message : Any) (w : World) :
  ~ (fst (approved_condition (PyResponse response) w) = inr true /\
     fst (rejected_condition (PyResponse response) w) = inr true) /\
  ~ (fst (missing_info_condition message w) = inr true /\
     fst (has_complete_info_condition message w) = inr true).
Proof.
  split.
  - rewrite approved_condition_response, rejected_condition_response.
    destruct (carried (PyResponse response)) as [review | ]; simpl.
    + destruct (ComplianceReview.approved review); simpl;
        intros [H1 H2]; congruence.
    + intros [H1 H2]; congruence.
  - destruct message as [ | s | b | request | reply ];
      try (intros [H1 H2]; discriminate H1).
    rewrite missing_info_condition_response.
    destruct (model_validate_json (T := NeedProfile.t)
                (text (agent_run_response reply)))
      as [e | profile] eqn:Hp.
    + rewrite (has_complete_info_condition_unparsed _ _ Hp).
      simpl. intros [H1 H2]; congruence.
    + rewrite (has_complete_info_condition_parsed _ _ Hp).
      rewrite (carried_response _ Hp), positive_length_negb. simpl.
      destruct (length (NeedProfile.missing_info profile) =? 0); simpl;
        intros [H1 H2]; congruence.
Qed.

(** C3.  On a response whose text is a well-formed ComplianceReview [r],
    [approved_condition] returns [r.approved] and [rejected_condition]
    returns [not r.approved]. *)
Theorem approved_rejected_follow_review
        (response : AgentExecutorResponse) (r : ComplianceReview.t)
        (w : World) :
  model_validate_json (text (agent_run_response response)) = inr r ->
  approved_condition (PyResponse response) w
  = (inr (ComplianceReview.approved r), w) /\
  rejected_condition (PyResponse response) w
  = (inr (negb (ComplianceReview.approved r)), w).
Proof.
  intros Hp.
  rewrite approved_condition_response, rejected_condition_response.
  rewrite (carried_response _ Hp). split; reflexivity.
Qed.

(** C4.  On a response whose text is a well-formed NeedProfile, these are
    equivalent: [missing_info] is empty, [has_complete_info_condition]
    returns [True], [missing_info_condition] returns [False]. *)
Theorem complete_info_equivalences
        (response : AgentExecutorResponse) (profile : NeedProfile.t)
        (w : World) :
  model_validate_json (text (agent_run_response response)) = inr profile ->
  (NeedProfile.missing_info profile = [] <->
   has_complete_info_condition (PyResponse response) w = (inr true, w)) /\
  (has_complete_info_condition (PyResponse response) w = (inr true, w) <->
   missing_info_condition (PyResponse response) w = (inr false, w)).
Proof.
  intros Hp.
  rewrite (has_complete_info_condition_parsed _ _ Hp).
  rewrite missing_info_condition_response, (carried_response _ Hp).
  rewrite positive_length_negb.
  destruct (NeedProfile.missing_info profile) as [ | item rest ]; simpl.
  - repeat split; reflexivity.
  - repeat split; intros H; discriminate H.
Qed.

(** C5.  The four routing conditions are total: on every input each
    returns a boolean and none raises. *)
Theorem conditions_total (message : Any) (w : World) :
  (exists b, approved_condition message w = (inr b, w)) /\
  (exists b, rejected_condition message w = (inr b, w)) /\
  (exists b, missing_info_condition message w = (inr b, w)) /\
  (exists b w', has_complete_info_condition message w = (inr b, w')).
Proof.
  destruct message as [ | s | b | request | response ];
    try (repeat split; repeat eexists; reflexivity).
  repeat split.
  - eexists. apply approved_condition_response.
  - eexists. apply rejected_condition_response.
  - eexists. apply missing_info_condition_response.
  - destruct (model_validate_json (T := NeedProfile.t)
                (text (agent_run_response response)))
      as [e | profile] eqn:Hp.
    + do 2 eexists. apply (has_complete_info_condition_unparsed _ _ Hp).
    + do 2 eexists. apply (has_complete_info_condition_parsed _ _ Hp).
Qed.

(** C10.  On an input that is not an AgentExecutorResponse
    [approved_condition] and [rejected_condition] both return [True],
    and [missing_info_condition] and [has_complete_info_condition] both
    return [False]. *)
Theorem non_response_pass_through (message : Any) (w : World) :
  isinstance_AgentExecutorResponse message = false ->
  approved_condition message w = (inr true, w) /\
  rejected_condition message w = (inr true, w) /\
  missing_info_condition message w = (inr false, w) /\
  has_complete_info_condition message w = (inr false, w).
Proof.
  intros Hshape.
  destruct message as [ | s | b | request | response ];
    try discriminate Hshape; repeat split; reflexivity.
Qed.

End ConditionProperties.

Section ExecutorProperties.

Context {NeedProfile_model : BaseModel NeedProfile.t}.
Context {FinalResponse_model : BaseModel FinalResponse.t}.

(** C6.  On a response whose text is a well-formed NeedProfile,
    [to_copilot_query] sends exactly one request, holding exactly one
    user-role message whose text is the profile's [structured_query],
    unchanged; it prints nothing, yields nothing and does not raise. *)
Theorem to_copilot_query_forwards_query
        (response : AgentExecutorResponse) (profile : NeedProfile.t)
        (w : World) :
  model_validate_json (text (agent_run_response response)) = inr profile ->
  to_copilot_query response w =
  (inr tt,
   {| stdout := stdout w;
      ctx_sent :=
        ctx_sent w
        ++ [ {| messages :=
                  [ChatMessage.mk USER (NeedProfile.structured_query profile)];
                should_respond := true |} ];
      ctx_outputs := ctx_outputs w |}).
Proof.
  intros Hp. unfold to_copilot_query, bind, call, send_message.
  rewrite Hp. reflexivity.
Qed.

(** C7.  [publish_final_response] never aborts the run: on every response
    it returns normally after yielding exactly one terminal output.  When
    the text parses as a FinalResponse the output is the fixed header
    followed by the parsed [content] and nothing is printed; when it does
    not, the output is the header followed by the raw text, and two
    diagnostic lines are printed (the warning with the error, and the
    first 500 characters of the raw text). *)
Theorem publish_final_response_never_aborts
        (response : AgentExecutorResponse) (w : World) :
  exists output diagnostics,
    publish_final_response response w =
    (inr tt,
     {| stdout := stdout w ++ diagnostics;
        ctx_sent := ctx_sent w;
        ctx_outputs := ctx_outputs w ++ [output] |}) /\
    (forall final,
        model_validate_json (text (agent_run_response response)) = inr final ->
        output = final_header ++ FinalResponse.content final /\
        diagnostics = []) /\
    (forall e,
        model_validate_json (T := FinalResponse.t)
          (text (agent_run_response response)) = inl e ->
        output = final_header ++ text (agent_run_response response) /\
        diagnostics =
        [ py "⚠️  Warning: Could not parse Publisher output as JSON: "
          ++ str_of_exception e;
          py "Raw output: "
          ++ slice_to 500 (text (agent_run_response response)) ]).
Proof.
  unfold publish_final_response, try_except, bind, call, print, yield_output.
  destruct (model_validate_json (text (agent_run_response response)))
    as [e | final].
  - do 2 eexists. split; [ | split ].
    + simpl. rewrite <- app_assoc. reflexivity.
    + intros final Hp. discriminate Hp.
    + intros e' He. injection He as <-. split; reflexivity.
  - exists (final_header ++ FinalResponse.content final), [].
    split; [ | split ].
    + simpl. rewrite app_nil_r. reflexivity.
    + intros final' Hp. injection Hp as <-. split; reflexivity.
    + intros e He. discriminate He.
Qed.

End ExecutorProperties.

(** ** The NeedProfile schema *)

Lemma all_str_strings (l : list str) :
  Json.all_str (map Json.String l) = Some l.
Proof.
  induction l as [ | s l IH ]; simpl; [reflexivity | ].
  rewrite IH. reflexivity.
Qed.

(** C9, as amended.  The NeedProfile model declares five typed fields
    and nothing else: every combination of field values is accepted as a
    NeedProfile, also an empty [missing_info] with an empty
    [structured_query]. *)
Theorem NeedProfile_fields_unconstrained
        (product_type customer_type : str) (key_constraints : list str)
        (missing_info : list str) (structured_query : str) :
  NeedProfile_of_json
    (NeedProfile_to_json
       (NeedProfile.mk product_type customer_type key_constraints
                       missing_info structured_query))
  = Some (NeedProfile.mk product_type customer_type key_constraints
                         missing_info structured_query).
Proof.
  unfold NeedProfile_of_json, NeedProfile_to_json, Json.field.
  cbn -[Json.all_str map].
  repeat match goal with
         | |- context [str_eqb (py ?a) (py ?b)] =>
             let v := eval vm_compute in (str_eqb (py a) (py b)) in
             change (str_eqb (py a) (py b)) with v
         end.
  cbn -[Json.all_str map].
  rewrite !all_str_strings. reflexivity.
Qed.

(** ** The revision cycle *)

Section RevisionCycle.

Context {NeedProfile_model : BaseModel NeedProfile.t}.
Context {ClarityExplanation_model : BaseModel ClarityExplanation.t}.
Context {ComplianceReview_model : BaseModel ComplianceReview.t}.
Context {FinalResponse_model : BaseModel FinalResponse.t}.

Variable M : Type.
Variable process : AgentId -> M -> list ChatMessage.t -> M * option str.
Variable max_iterations : nat.

Hypothesis profiler_complete :
  always_answers process need_profiler complete_profile_payload.
Hypothesis expert_answers :
  always_answers process sabadell_expert (fun _ => True).
Hypothesis writer_answers :
  always_answers process clarity_writer clarity_payload.
Hypothesis checker_rejects :
  always_answers process compliance_checker rejected_review_payload.

Lemma looping_at_status n (r : Run M) :
  looping_at n r ->
  status max_iterations r
  = if max_iterations <=? iteration r
    then Failed (NotConverged max_iterations)
    else Running.
Proof.
  intros (He & Ho & msg & Hp & _). unfold status.
  rewrite He, Ho, Hp. reflexivity.
Qed.

Lemma run_agent_answers a msg msgs (mem mem' : M) payload :
  input_messages msg = Some msgs ->
  process a mem msgs = (mem', Some payload) ->
  matches_response_format a payload = true ->
  run_agent process a msg mem
  = (mem', inr [PyResponse (response_with (agent_id a) payload)]).
Proof.
  intros Hin Hproc Hfmt. unfold run_agent.
  rewrite Hin, Hproc, Hfmt. reflexivity.
Qed.

Lemma dispatch_complete_profile response w :
  complete_profile_payload (text (agent_run_response response)) ->
  dispatch_all (out_edges (Agent need_profiler)) [PyResponse response] w
  = ([(Function ToCopilotQuery, PyResponse response)], w).
Proof.
  intros (profile & Hp & Hmi). cbn -[missing_info_condition
                                      has_complete_info_condition].
  rewrite missing_info_condition_response, (carried_response _ Hp).
  rewrite (has_complete_info_condition_parsed _ _ Hp), Hmi.
  reflexivity.
Qed.

Lemma dispatch_rejected_review response w :
  rejected_review_payload (text (agent_run_response response)) ->
  dispatch_all (out_edges (Agent compliance_checker)) [PyResponse response] w
  = ([(Function ToClarityRevision, PyResponse response)], w).
Proof.
  intros (review & Hp & Hrej). cbn -[approved_condition rejected_condition].
  rewrite approved_condition_response, rejected_condition_response.
  rewrite (carried_response _ Hp), Hrej. reflexivity.
Qed.

Ltac close_looping :=
  split;
  [ split; [reflexivity | split; [reflexivity | ] ];
    eexists; split; [reflexivity | constructor; assumption || exact I ]
  | split; reflexivity ].

(** One node completion on the path leads to the next executor of it. *)
Lemma execute_on_path n msg (r : Run M) :
  error r = None ->
  ctx_outputs (world r) = [] ->
  pending r = [] ->
  on_revision_path n msg ->
  looping_at (revision_successor n) (execute process r (n, msg)) /\
  history (execute process r (n, msg)) = history r ++ [n] /\
  iteration (execute process r (n, msg)) = iteration r.
Proof.
  intros He Ho Hp Hpath.
  destruct r as [pend mem w hist iter err]. simpl in He, Ho, Hp.
  subst err pend.
  destruct w as [out sent outs]. simpl in Ho. subst outs.
  unfold execute. simpl.
  destruct Hpath as [ question | response Hprofile | request | response
                    | request | response | response Hreview ].
  - destruct (profiler_complete mem [ChatMessage.mk USER question])
      as (mem' & payload & Hproc & Hkind).
    assert (Hfmt : matches_response_format need_profiler payload = true).
    { destruct Hkind as (profile & Hparse & _). simpl. rewrite Hparse.
      reflexivity. }
    rewrite (run_agent_answers (PyStr question) eq_refl Hproc Hfmt).
    rewrite dispatch_complete_profile by exact Hkind.
    unfold looping_at. simpl. close_looping.
  - destruct Hprofile as (profile & Hparse & Hmi).
    unfold run_executor_function, run_function, to_copilot_query,
      bind, call, send_message. simpl. rewrite Hparse. simpl.
    unfold looping_at. simpl. close_looping.
  - destruct (expert_answers mem (messages request))
      as (mem' & payload & Hproc & _).
    rewrite (run_agent_answers (PyRequest request) eq_refl Hproc eq_refl).
    unfold looping_at. simpl. close_looping.
  - unfold run_executor_function, run_function, to_clarity_request,
      send_message. simpl.
    unfold looping_at. simpl. close_looping.
  - destruct (writer_answers mem (messages request))
      as (mem' & payload & Hproc & explanation & Hparse).
    assert (Hfmt : matches_response_format clarity_writer payload = true).
    { simpl. rewrite Hparse. reflexivity. }
    rewrite (run_agent_answers (PyRequest request) eq_refl Hproc Hfmt).
    unfold looping_at. simpl. close_looping.
  - destruct (checker_rejects mem
                [ChatMessage.mk ASSISTANT (text (agent_run_response response))])
      as (mem' & payload & Hproc & Hkind).
    assert (Hfmt : matches_response_format compliance_checker payload = true).
    { destruct Hkind as (review & Hparse & _). simpl. rewrite Hparse.
      reflexivity. }
    rewrite (run_agent_answers (PyResponse response) eq_refl Hproc Hfmt).
    rewrite dispatch_rejected_review by exact Hkind.
    unfold looping_at. simpl. close_looping.
  - destruct Hreview as (review & Hparse & Hrej).
    unfold run_executor_function, run_function, to_clarity_revision,
      bind, call, send_message. simpl. rewrite Hparse. simpl.
    unfold looping_at. simpl. close_looping.
Qed.

(** One superstep of such a run: one executor runs, the next is due. *)
Lemma superstep_looping n (r : Run M) :
  looping_at n r ->
  looping_at (revision_successor n) (superstep process r) /\
  history (superstep process r) = history r ++ [n] /\
  iteration (superstep process r) = S (iteration r).
Proof.
  intros (He & Ho & msg & Hp & Hpath).
  unfold superstep. rewrite Hp. simpl fold_left.
  set (r0 := {| pending := []; memory := memory r; world := world r;
                history := history r; iteration := iteration r;
                error := error r |}).
  destruct (@execute_on_path n msg r0 He Ho eq_refl Hpath)
    as ((He' & Ho' & msg' & Hp' & Hpath') & Hh & Hi).
  split; [ | split ].
  - unfold looping_at. simpl. repeat split; try assumption.
    exists msg'. split; assumption.
  - simpl. exact Hh.
  - simpl. rewrite Hi. reflexivity.
Qed.

Lemma run_steps_add a b (r : Run M) :
  run_steps process max_iterations (a + b) r
  = run_steps process max_iterations b (run_steps process max_iterations a r).
Proof.
  revert r. induction a as [ | a IH ]; intros r; simpl; [reflexivity | ].
  apply IH.
Qed.

(** The start executor has run when the supersteps begin. *)
Lemma start_run_looping (mem : M) question :
  looping_at (Function ToCopilotQuery) (start_run process mem question) /\
  history (start_run process mem question) = [Agent need_profiler] /\
  iteration (start_run process mem question) = 0.
Proof.
  unfold start_run, start_executor.
  apply (@execute_on_path (Agent need_profiler) (PyStr question));
    try reflexivity.
  constructor.
Qed.

(** Below the limit the run goes on along the path. *)
Lemma looping_below_limit k : forall n (r : Run M),
  looping_at n r ->
  iteration r + k <= max_iterations ->
  looping_at (Nat.iter k revision_successor n)
             (run_steps process max_iterations k r) /\
  history (run_steps process max_iterations k r)
  = history r ++ revision_trace k n /\
  iteration (run_steps process max_iterations k r) = iteration r + k.
Proof.
  induction k as [ | k IH ]; intros n r Hloop Hlimit.
  - simpl. rewrite app_nil_r, Nat.add_0_r.
    split; [exact Hloop | split; reflexivity].
  - assert (Hrun : status max_iterations r = Running).
    { rewrite (looping_at_status Hloop).
      destruct (max_iterations <=? iteration r) eqn:Hle; [ | reflexivity].
      apply Nat.leb_le in Hle. lia. }
    simpl run_steps. unfold engine_step. rewrite Hrun.
    destruct (superstep_looping Hloop) as (Hloop' & Hh & Hi).
    destruct (IH (revision_successor n) (superstep process r) Hloop')
      as (L & H & I); [rewrite Hi; lia | ].
    split; [ | split ].
    + rewrite Nat.iter_succ_r. exact L.
    + rewrite H, Hh, <- app_assoc. reflexivity.
    + rewrite I, Hi. lia.
Qed.

(** A run that has stopped stays as it is. *)
Lemma run_steps_stopped k (r : Run M) :
  status max_iterations r <> Running ->
  run_steps process max_iterations k r = r.
Proof.
  intros Hstop. induction k as [ | k IH ]; simpl; [reflexivity | ].
  unfold engine_step. destruct (status max_iterations r) eqn:Hs;
    [contradiction | exact IH | exact IH].
Qed.

(** With a complete profile, stages that answer with well-formed
    records and reviews that are never approved, the run goes round the
    cycle until the limit is reached and has then failed. *)
Lemma revision_cycle_until_limit (mem : M) (question : str) :
  (forall n,
      n < max_iterations ->
      status max_iterations
             (run_steps process max_iterations n
                        (start_run process mem question)) = Running) /\
  status max_iterations
         (run_steps process max_iterations max_iterations
                    (start_run process mem question))
  = Failed (NotConverged max_iterations) /\
  ctx_outputs
    (world (run_steps process max_iterations max_iterations
                      (start_run process mem question))) = [] /\
  history (run_steps process max_iterations max_iterations
                     (start_run process mem question))
  = Agent need_profiler
    :: revision_trace max_iterations (Function ToCopilotQuery) /\
  (forall n,
      max_iterations <= n ->
      run_steps process max_iterations n (start_run process mem question)
      = run_steps process max_iterations max_iterations
                  (start_run process mem question)) /\
  (max_iterations = DEFAULT_MAX_ITERATIONS ->
   visits (Agent clarity_writer)
          (run_steps process max_iterations max_iterations
                     (start_run process mem question)) = 33 /\
   visits (Agent compliance_checker)
          (run_steps process max_iterations max_iterations
                     (start_run process mem question)) = 32 /\
   visits (Function ToClarityRevision)
          (run_steps process max_iterations max_iterations
                     (start_run process mem question)) = 32).
Proof.
  destruct (start_run_looping mem question) as (L0 & H0 & I0).
  assert (Hbelow : forall k, k <= max_iterations ->
            looping_at (Nat.iter k revision_successor (Function ToCopilotQuery))
                       (run_steps process max_iterations k
                                  (start_run process mem question)) /\
            history (run_steps process max_iterations k
                               (start_run process mem question))
            = Agent need_profiler
              :: revision_trace k (Function ToCopilotQuery) /\
            iteration (run_steps process max_iterations k
                                 (start_run process mem question)) = k).
  { intros k Hk.
    destruct (@looping_below_limit k _ _ L0) as (L & H & I);
      [rewrite I0; lia | ].
    rewrite H0 in H. rewrite I0 in I.
    split; [exact L | split; [exact H | exact I]]. }
  destruct (Hbelow max_iterations (le_n _)) as (Lm & Hm & Im).
  assert (Hfailed : status max_iterations
                      (run_steps process max_iterations max_iterations
                                 (start_run process mem question))
                    = Failed (NotConverged max_iterations)).
  { rewrite (looping_at_status Lm), Im, Nat.leb_refl. reflexivity. }
  split; [ | split; [ | split; [ | split; [ | split ] ] ] ].
  - intros n Hn. destruct (Hbelow n) as (L & _ & I); [lia | ].
    rewrite (looping_at_status L), I.
    destruct (max_iterations <=? n) eqn:Hle; [ | reflexivity].
    apply Nat.leb_le in Hle. lia.
  - exact Hfailed.
  - destruct Lm as (_ & Ho & _). exact Ho.
  - exact Hm.
  - intros n Hn. replace n with (max_iterations + (n - max_iterations)) by lia.
    rewrite run_steps_add. apply run_steps_stopped.
    rewrite Hfailed. discriminate.
  - intros Hdefault. unfold visits. rewrite Hm, Hdefault.
    vm_compute. repeat split.
Qed.

End RevisionCycle.

Section IterationLimit.

Context {NeedProfile_model : BaseModel NeedProfile.t}.
Context {ClarityExplanation_model : BaseModel ClarityExplanation.t}.
Context {ComplianceReview_model : BaseModel ComplianceReview.t}.
Context {FinalResponse_model : BaseModel FinalResponse.t}.

Variable M : Type.
Variable process : AgentId -> M -> list ChatMessage.t -> M * option str.
Variable max_iterations : nat.

Lemma execute_iteration (r : Run M) delivery :
  iteration (execute process r delivery) = iteration r.
Proof.
  unfold execute. destruct (error r); [reflexivity | ].
  destruct delivery as [n msg].
  destruct n as [a | f].
  - destruct (run_agent process a msg (memory r)) as [mem' [e | outputs]];
      [reflexivity | ].
    destruct (dispatch_all (out_edges (Agent a)) outputs (world r)).
    reflexivity.
  - destruct (run_executor_function f msg (world r)) as [w' [e | outputs]];
      [reflexivity | ].
    destruct (dispatch_all (out_edges (Function f)) outputs w').
    reflexivity.
Qed.

Lemma deliveries_iteration deliveries : forall r : Run M,
  iteration (fold_left (execute process) deliveries r) = iteration r.
Proof.
  induction deliveries as [ | d rest IH ]; intros r; simpl; [reflexivity | ].
  rewrite IH. apply execute_iteration.
Qed.

(** Every superstep counts, whatever it delivers. *)
Lemma superstep_iteration (r : Run M) :
  iteration (superstep process r) = S (iteration r).
Proof. unfold superstep. simpl. rewrite deliveries_iteration. reflexivity. Qed.

Lemma running_below_limit (r : Run M) :
  status max_iterations r = Running -> iteration r < max_iterations.
Proof.
  unfold status. destruct (error r); [discriminate | ].
  destruct (ctx_outputs (world r)); [ | discriminate].
  destruct (pending r); [discriminate | ].
  destruct (max_iterations <=? iteration r) eqn:Hle; [discriminate | ].
  intros _. apply Nat.leb_gt. exact Hle.
Qed.

(** A run that is still running has made one superstep per step. *)
Lemma running_counts k : forall r : Run M,
  status max_iterations (run_steps process max_iterations k r) = Running ->
  iteration (run_steps process max_iterations k r) = iteration r + k.
Proof.
  induction k as [ | k IH ]; intros r Hrun; simpl in *.
  - lia.
  - unfold engine_step in *.
    destruct (status max_iterations r) eqn:Hs.
    + rewrite (IH _ Hrun), superstep_iteration. lia.
    + rewrite run_steps_stopped in Hrun by (rewrite Hs; discriminate).
      congruence.
    + rewrite run_steps_stopped in Hrun by (rewrite Hs; discriminate).
      congruence.
Qed.

(** No run outlasts the limit. *)
Lemma run_stops k (r : Run M) :
  max_iterations <= iteration r + k ->
  status max_iterations (run_steps process max_iterations k r) <> Running.
Proof.
  intros Hlimit Hrun.
  pose proof (running_counts k r Hrun) as Hcount.
  apply running_below_limit in Hrun. lia.
Qed.

Lemma start_run_iteration (mem : M) question :
  iteration (start_run process mem question) = 0.
Proof. unfold start_run. apply execute_iteration. Qed.

Hypothesis checker_rejects :
  always_answers process compliance_checker rejected_review_payload.

(** C8.  A run in which the Compliance Checker always returns
    [approved=false] does not take the revision cycle for ever: once
    [max_iterations] supersteps were made the run has stopped, and it
    never moves again.  When the profile is complete and the stages
    answer with well-formed records, the run goes round the cycle while
    fewer supersteps were made, and at the maximum it has failed with
    the runner's error, having yielded nothing.  As the workflow is
    built the maximum is the default of 100: the run fails after 33 runs
    of the Clarity Writer, 32 of the Compliance Checker and 32 of
    [to_clarity_revision]. *)
Theorem rejected_reviews_reach_limit (mem : M) (question : str) :
  (forall n,
      max_iterations <= n ->
      status max_iterations
             (run_steps process max_iterations n
                        (start_run process mem question)) <> Running /\
      run_steps process max_iterations n (start_run process mem question)
      = run_steps process max_iterations max_iterations
                  (start_run process mem question)) /\
  (always_answers process need_profiler complete_profile_payload ->
   always_answers process sabadell_expert (fun _ => True) ->
   always_answers process clarity_writer clarity_payload ->
   (forall n,
       n < max_iterations ->
       status max_iterations
              (run_steps process max_iterations n
                         (start_run process mem question)) = Running) /\
   status max_iterations
          (run_steps process max_iterations max_iterations
                     (start_run process mem question))
   = Failed (NotConverged max_iterations) /\
   ctx_outputs
     (world (run_steps process max_iterations max_iterations
                       (start_run process mem question))) = [] /\
   history (run_steps process max_iterations max_iterations
                      (start_run process mem question))
   = Agent need_profiler
     :: revision_trace max_iterations (Function ToCopilotQuery) /\
   (max_iterations = DEFAULT_MAX_ITERATIONS ->
    visits (Agent clarity_writer)
           (run_steps process max_iterations max_iterations
                      (start_run process mem question)) = 33 /\
    visits (Agent compliance_checker)
           (run_steps process max_iterations max_iterations
                      (start_run process mem question)) = 32 /\
    visits (Function ToClarityRevision)
           (run_steps process max_iterations max_iterations
                      (start_run process mem question)) = 32)).
Proof.
  split.
  - intros n Hn. split.
    + apply run_stops. rewrite start_run_iteration. lia.
    + replace n with (max_iterations + (n - max_iterations)) by lia.
      rewrite run_steps_add. apply run_steps_stopped.
      apply run_stops. rewrite start_run_iteration. lia.
  - intros profiler_complete expert_answers writer_answers.
    destruct (revision_cycle_until_limit max_iterations
                profiler_complete expert_answers writer_answers
                checker_rejects mem question)
      as (Hbelow & Hfailed & Hout & Hhist & _ & Hvisits).
    repeat split; try assumption; apply Hvisits; assumption.
Qed.

End IterationLimit.

(** ** The properties on concrete messages and runs *)

(** C1: a raw string cannot be interpreted as a ComplianceReview, and
    [approved_condition] answers [True] on it. *)
Lemma approved_condition_passes_raw_string :
  carried (T := ComplianceReview.t) (PyStr (py "hola")) = None /\
  is_ok (model_validate_json (T := ComplianceReview.t) (py "hola")) = false /\
  approved_condition (PyStr (py "hola")) empty_world = (inr true, empty_world).
Proof.
  split; [reflexivity | ]. split; [vm_compute; reflexivity | reflexivity].
Qed.

Lemma conditions_fail_closed_witness :
  carried (T := NeedProfile.t) (PyResponse unparsed_response) = None /\
  carried (T := ComplianceReview.t) (PyResponse unparsed_response) = None /\
  missing_info_condition (PyResponse unparsed_response) empty_world
  = (inr false, empty_world) /\
  (exists w', has_complete_info_condition (PyResponse unparsed_response)
                                          empty_world = (inr false, w')) /\
  approved_condition (PyResponse unparsed_response) empty_world
  = (inr false, empty_world).
Proof.
  assert (H1 : carried (T := NeedProfile.t) (PyResponse unparsed_response)
               = None) by (vm_compute; reflexivity).
  assert (H2 : carried (T := ComplianceReview.t) (PyResponse unparsed_response)
               = None) by (vm_compute; reflexivity).
  destruct (conditions_fail_closed (PyResponse unparsed_response) empty_world)
    as [F1 F2].
  destruct (F1 H1) as [Fm Fh].
  split; [exact H1 | ]. split; [exact H2 | ]. split; [exact Fm | ].
  split; [exact Fh | exact (F2 H2)].
Defined.

(** C2: on a raw string both [approved_condition] and
    [rejected_condition] answer [True]. *)
Lemma raw_string_fires_both_review_edges :
  approved_condition (PyStr (py "hola")) empty_world = (inr true, empty_world) /\
  rejected_condition (PyStr (py "hola")) empty_world = (inr true, empty_world).
Proof. split; reflexivity. Qed.

Lemma approved_rejected_follow_review_witness :
  model_validate_json (text (agent_run_response rejected_review_response))
  = inr rejected_review /\
  approved_condition (PyResponse rejected_review_response) empty_world
  = (inr false, empty_world) /\
  rejected_condition (PyResponse rejected_review_response) empty_world
  = (inr true, empty_world).
Proof.
  assert (H : model_validate_json
                (text (agent_run_response rejected_review_response))
              = inr rejected_review) by (vm_compute; reflexivity).
  split; [exact H | ].
  exact (approved_rejected_follow_review rejected_review_response
           empty_world H).
Defined.

Lemma complete_info_equivalences_witness :
  model_validate_json (text (agent_run_response complete_profile_response))
  = inr complete_profile /\
  (NeedProfile.missing_info complete_profile = [] <->
   has_complete_info_condition (PyResponse complete_profile_response)
                               empty_world = (inr true, empty_world)) /\
  (has_complete_info_condition (PyResponse complete_profile_response)
                               empty_world = (inr true, empty_world) <->
   missing_info_condition (PyResponse complete_profile_response)
                          empty_world = (inr false, empty_world)).
Proof.
  assert (H : model_validate_json
                (text (agent_run_response complete_profile_response))
              = inr complete_profile) by (vm_compute; reflexivity).
  split; [exact H | ].
  exact (complete_info_equivalences complete_profile_response empty_world H).
Defined.

Lemma to_copilot_query_forwards_query_witness :
  model_validate_json (text (agent_run_response complete_profile_response))
  = inr complete_profile /\
  to_copilot_query complete_profile_response empty_world =
  (inr tt,
   {| stdout := [];
      ctx_sent :=
        [ {| messages :=
               [ChatMessage.mk USER
                  (py "Cliente nuevo busca hipoteca a tipo fijo.")];
             should_respond := true |} ];
      ctx_outputs := [] |}).
Proof.
  assert (H : model_validate_json
                (text (agent_run_response complete_profile_response))
              = inr complete_profile) by (vm_compute; reflexivity).
  split; [exact H | ].
  rewrite (to_copilot_query_forwards_query complete_profile_response
             empty_world H).
  vm_compute. reflexivity.
Defined.

(** The fallback of [publish_final_response] on a text that is not JSON. *)
Example publish_final_response_fallback :
  publish_final_response unparsed_response empty_world =
  (inr tt,
   {| stdout :=
        [ py "⚠️  Warning: Could not parse Publisher output as JSON: Invalid JSON";
          py "Raw output: Lo siento, no puedo ayudarte con eso." ];
      ctx_sent := [];
      ctx_outputs :=
        [ py "✅ **RESPUESTA FINAL:**" ++ NL ++ NL
          ++ py "Lo siento, no puedo ayudarte con eso." ] |}).
Proof. vm_compute. reflexivity. Qed.

(** C9: a record with nothing missing and an empty query is a valid
    NeedProfile; it breaks the invariant, and
    [has_complete_info_condition] lets it through. *)
Lemma empty_query_profile_breaks_invariant :
  model_validate_json empty_query_profile_text = inr empty_query_profile /\
  ~ query_present_when_complete empty_query_profile /\
  has_complete_info_condition
    (PyResponse (response_with (py "need_profiler") empty_query_profile_text))
    empty_world = (inr true, empty_world).
Proof.
  split; [vm_compute; reflexivity | ].
  split; [ | vm_compute; reflexivity ].
  intros Hinv. apply Hinv; reflexivity.
Qed.

Lemma non_response_pass_through_witness :
  isinstance_AgentExecutorResponse (PyStr (py "hola")) = false /\
  approved_condition (PyStr (py "hola")) empty_world = (inr true, empty_world) /\
  rejected_condition (PyStr (py "hola")) empty_world = (inr true, empty_world) /\
  missing_info_condition (PyStr (py "hola")) empty_world
  = (inr false, empty_world) /\
  has_complete_info_condition (PyStr (py "hola")) empty_world
  = (inr false, empty_world).
Proof.
  split; [reflexivity | ].
  exact (non_response_pass_through (PyStr (py "hola")) empty_world eq_refl).
Defined.

(** The stages of [rejecting_stages] answer as the revision cycle needs. *)
Lemma rejecting_stages_profiler :
  always_answers rejecting_stages need_profiler complete_profile_payload.
Proof.
  intros mem msgs. exists tt, complete_profile_text.
  split; [reflexivity | ]. exists complete_profile.
  split; [vm_compute; reflexivity | reflexivity].
Defined.

Lemma rejecting_stages_expert :
  always_answers rejecting_stages sabadell_expert (fun _ => True).
Proof.
  intros mem msgs. exists tt, (py "Hipoteca Fija: TIN 2,5%").
  split; [reflexivity | exact I].
Defined.

Lemma rejecting_stages_writer :
  always_answers rejecting_stages clarity_writer clarity_payload.
Proof.
  intros mem msgs. exists tt, clarity_text.
  split; [reflexivity | ].
  eexists. vm_compute. reflexivity.
Defined.

Lemma rejecting_stages_checker :
  always_answers rejecting_stages compliance_checker rejected_review_payload.
Proof.
  intros mem msgs. exists tt, rejected_review_text.
  split; [reflexivity | ]. exists rejected_review.
  split; [vm_compute; reflexivity | reflexivity].
Defined.

Lemma rejected_reviews_reach_limit_witness :
  always_answers rejecting_stages compliance_checker rejected_review_payload /\
  (forall n,
      DEFAULT_MAX_ITERATIONS <= n ->
      status DEFAULT_MAX_ITERATIONS
             (run_steps rejecting_stages DEFAULT_MAX_ITERATIONS n
                        (start_run rejecting_stages tt
                                   (py "Quiero hipoteca tipo fijo")))
      <> Running) /\
  status DEFAULT_MAX_ITERATIONS
         (run_steps rejecting_stages DEFAULT_MAX_ITERATIONS
                    DEFAULT_MAX_ITERATIONS
                    (start_run rejecting_stages tt
                               (py "Quiero hipoteca tipo fijo")))
  = Failed (NotConverged DEFAULT_MAX_ITERATIONS) /\
  visits (Agent clarity_writer)
         (run_steps rejecting_stages DEFAULT_MAX_ITERATIONS
                    DEFAULT_MAX_ITERATIONS
                    (start_run rejecting_stages tt
                               (py "Quiero hipoteca tipo fijo"))) = 33.
Proof.
  split; [exact rejecting_stages_checker | ].
  destruct (rejected_reviews_reach_limit
              DEFAULT_MAX_ITERATIONS rejecting_stages_checker
              tt (py "Quiero hipoteca tipo fijo"))
    as (Hstops & Hcycle).
  split; [intros n Hn; exact (proj1 (Hstops n Hn)) | ].
  destruct (Hcycle rejecting_stages_profiler rejecting_stages_expert
                   rejecting_stages_writer)
    as (_ & Hfailed & _ & _ & Hvisits).
  split; [exact Hfailed | ].
  destruct (Hvisits eq_refl) as (Hwriter & _). exact Hwriter.
Defined.

(** ** The scenarios of the graph, run on the engine *)

(** A profile with missing information goes straight to the
    request-more-info sink; the product expert is never invoked. *)
Example scenario_missing_info :
  let r := run_steps asking_stages DEFAULT_MAX_ITERATIONS 10
             (start_run asking_stages tt (py "Quiero información del banco")) in
  status DEFAULT_MAX_ITERATIONS r = Completed /\
  history r = [Agent need_profiler; Function RequestMoreInfo] /\
  ctx_outputs (world r) =
  [ py "📋 **Necesitamos más información para ayudarte mejor:**" ++ NL ++ NL
    ++ py "- qué tipo de producto o servicio necesitas" ++ NL ++ NL
    ++ py "Por favor, proporciona estos datos para poder ofrecerte las mejores opciones del Banco Sabadell." ].
Proof. vm_compute. repeat split. Qed.

(** A complete profile with an approved review reaches the publisher, and
    the output is the header and the publisher's content. *)
Example scenario_approved :
  let r := run_steps approving_stages DEFAULT_MAX_ITERATIONS 10
             (start_run approving_stages tt (py "Quiero hipoteca tipo fijo")) in
  status DEFAULT_MAX_ITERATIONS r = Completed /\
  history r =
  [ Agent need_profiler; Function ToCopilotQuery; Agent sabadell_expert;
    Function ToClarityRequest; Agent clarity_writer;
    Agent compliance_checker; Agent publisher;
    Function PublishFinalResponse ] /\
  iteration r = 7 /\
  ctx_outputs (world r) = [ final_header ++ py "## Hipotecas a tipo fijo" ].
Proof. vm_compute. repeat split. Qed.

(** A rejection followed by an approval: the Clarity Writer and the
    Compliance Checker each run twice, then the publisher. *)
Example scenario_one_revision :
  let r := run_steps second_pass_stages DEFAULT_MAX_ITERATIONS 20
             (start_run second_pass_stages 0
                        (py "Quiero hipoteca tipo fijo")) in
  status DEFAULT_MAX_ITERATIONS r = Completed /\
  visits (Agent clarity_writer) r = 2 /\
  visits (Agent compliance_checker) r = 2 /\
  visits (Agent publisher) r = 1 /\
  ctx_outputs (world r) = [ final_header ++ py "## Hipotecas a tipo fijo" ].
Proof. vm_compute. repeat split. Qed.

(** Every review a rejection, as the workflow is built: the run is still
    going after 99 supersteps and has failed after the hundredth, and one
    more step changes nothing. *)
Example scenario_never_approved :
  let start := start_run rejecting_stages tt (py "Quiero hipoteca tipo fijo") in
  let run n := run_steps rejecting_stages DEFAULT_MAX_ITERATIONS n start in
  status DEFAULT_MAX_ITERATIONS (run 99) = Running /\
  status DEFAULT_MAX_ITERATIONS (run 100) = Failed (NotConverged 100) /\
  length (history (run 100)) = 101 /\
  (visits (Agent clarity_writer) (run 101),
   visits (Agent compliance_checker) (run 101),
   visits (Function ToClarityRevision) (run 101)) = (33, 32, 32) /\
  ctx_outputs (world (run 101)) = [].
Proof. vm_compute. repeat split. Qed.

(** * Further properties of the bridges, the conditions and the graph *)

(** ** Texts *)

Lemma contains_head (part rest : str) : contains part (part ++ rest).
Proof. exists [], rest. reflexivity. Qed.

Lemma contains_whole (part : str) : contains part part.
Proof. exists [], []. simpl. rewrite app_nil_r. reflexivity. Qed.

Lemma contains_app_r (part l r : str) :
  contains part r -> contains part (l ++ r).
Proof.
  intros (before & after & ->). exists (l ++ before), after.
  rewrite app_assoc. reflexivity.
Qed.

Lemma contains_app_l (part l r : str) :
  contains part l -> contains part (l ++ r).
Proof.
  intros (before & after & ->). exists before, (after ++ r).
  rewrite <- !app_assoc. reflexivity.
Qed.

Lemma ends_with_whole (part : str) : ends_with part part.
Proof. exists []. reflexivity. Qed.

Lemma ends_with_app_r (part l r : str) :
  ends_with part r -> ends_with part (l ++ r).
Proof.
  intros (before & ->). exists (l ++ before). rewrite app_assoc. reflexivity.
Qed.

Lemma join_cons (sep p q : str) (rest : list str) :
  join sep (p :: q :: rest) = p ++ sep ++ join sep (q :: rest).
Proof. reflexivity. Qed.

(** Every part of a joined text is in it. *)
Lemma contains_join (sep x : str) (parts : list str) :
  In x parts -> contains x (join sep parts).
Proof.
  induction parts as [ | p rest IH ]; intros Hin; [destruct Hin | ].
  destruct rest as [ | q rest ].
  - destruct Hin as [-> | []]. apply contains_whole.
  - rewrite join_cons. destruct Hin as [-> | Hin].
    + apply contains_head.
    + apply contains_app_r, contains_app_r, IH, Hin.
Qed.

Lemma line_feeds_app (a b : str) :
  line_feeds (a ++ b) = line_feeds a + line_feeds b.
Proof. apply count_occ_app. Qed.

(** A listing of items that hold no line feed has one line per item. *)
Lemma line_feeds_listing (items : list str) :
  Forall (fun item => line_feeds item = 0) items ->
  line_feeds (join NL (bullets items)) = length items - 1.
Proof.
  induction items as [ | item rest IH ]; intros Hclean; [reflexivity | ].
  inversion Hclean as [ | ? ? Hitem Hrest ]; subst.
  destruct rest as [ | next rest ].
  - change (join NL (bullets [item])) with (py "- " ++ item).
    rewrite line_feeds_app, Hitem. reflexivity.
  - change (bullets (item :: next :: rest))
      with ((py "- " ++ item) :: bullets (next :: rest)).
    change (bullets (next :: rest))
      with ((py "- " ++ next) :: bullets rest) at 1.
    rewrite join_cons, !line_feeds_app, Hitem.
    change ((py "- " ++ next) :: bullets rest) with (bullets (next :: rest)).
    rewrite (IH Hrest).
    change (line_feeds (py "- ")) with 0. change (line_feeds NL) with 1.
    simpl length. lia.
Qed.

Lemma skipn_length_app {A} (l r : list A) : skipn (length l) (l ++ r) = r.
Proof. induction l as [ | x l IH ]; simpl; [reflexivity | exact IH]. Qed.

Section BridgeProperties.

Context {NeedProfile_model : BaseModel NeedProfile.t}.
Context {ComplianceReview_model : BaseModel ComplianceReview.t}.
Context {FinalResponse_model : BaseModel FinalResponse.t}.

(** X1.  [to_clarity_request] decodes nothing, so it works on every
    response, also one with an empty text: it sends exactly one request
    holding exactly one user-role message, and the text of that message
    is the fixed rewrite instruction, two line feeds, and then the
    expert's answer, whole and unchanged; so the answer is what follows
    the instruction.  Nothing is printed or yielded. *)
Theorem to_clarity_request_carries_answer
        (response : AgentExecutorResponse) (w : World) :
  exists message,
    to_clarity_request response w =
    (inr tt,
     {| stdout := stdout w;
        ctx_sent := ctx_sent w
                    ++ [ {| messages := [message]; should_respond := true |} ];
        ctx_outputs := ctx_outputs w |}) /\
    ChatMessage.role message = USER /\
    ChatMessage.text message
    = py "Reescribe esta información de productos bancarios en lenguaje claro para el cliente:"
      ++ NL ++ NL ++ text (agent_run_response response) /\
    skipn (length clarity_request_header) (ChatMessage.text message)
    = text (agent_run_response response).
Proof.
  exists (ChatMessage.mk USER
            (clarity_request_header ++ text (agent_run_response response))).
  split; [reflexivity | ]. split; [reflexivity | ]. split.
  - cbn [ChatMessage.text]. unfold clarity_request_header.
    rewrite <- app_assoc. reflexivity.
  - exact (skipn_length_app clarity_request_header
             (text (agent_run_response response))).
Qed.

(** X2.  On a response whose text is a well-formed ComplianceReview,
    [to_clarity_revision] sends exactly one user-role message; every
    issue of the review is in it as a bullet, the feedback is in it, and
    it ends with the reviewed content.  Nothing is printed or yielded. *)
Theorem to_clarity_revision_keeps_review
        (response : AgentExecutorResponse) (review : ComplianceReview.t)
        (w : World) :
  model_validate_json (text (agent_run_response response)) = inr review ->
  exists revision,
    to_clarity_revision response w =
    (inr tt,
     {| stdout := stdout w;
        ctx_sent :=
          ctx_sent w
          ++ [ {| messages := [ChatMessage.mk USER revision];
                  should_respond := true |} ];
        ctx_outputs := ctx_outputs w |}) /\
    (forall issue,
        In issue (ComplianceReview.issues review) ->
        contains (py "- " ++ issue) revision) /\
    contains (ComplianceReview.feedback review) revision /\
    ends_with (ComplianceReview.content review) revision.
Proof.
  intros Hp. unfold to_clarity_revision, bind, call, send_message.
  rewrite Hp. eexists. split; [reflexivity | ]. split; [ | split ].
  - intros issue Hin. apply contains_app_r, contains_app_l.
    apply contains_join. unfold bullets. apply in_map with (f := fun item => py "- " ++ item).
    exact Hin.
  - do 6 apply contains_app_r. apply contains_head.
  - do 11 apply ends_with_app_r. apply ends_with_whole.
Qed.

(** X3.  The two bridges that decode a NeedProfile do not catch the
    decoding error: on a text that does not decode, [to_copilot_query]
    and [request_more_info] raise that error, having sent, yielded and
    printed nothing. *)
Theorem profile_bridges_raise
        (response : AgentExecutorResponse) (e : Exception) (w : World) :
  model_validate_json (T := NeedProfile.t)
    (text (agent_run_response response)) = inl e ->
  to_copilot_query response w = (inl e, w) /\
  request_more_info response w = (inl e, w).
Proof.
  intros Hp. unfold to_copilot_query, request_more_info, bind, call.
  rewrite Hp. split; reflexivity.
Qed.

(** X4.  [to_clarity_revision] does not catch the decoding error either:
    on a text that is not a ComplianceReview it raises, and no revision
    request is sent. *)
Theorem to_clarity_revision_raises
        (response : AgentExecutorResponse) (e : Exception) (w : World) :
  model_validate_json (T := ComplianceReview.t)
    (text (agent_run_response response)) = inl e ->
  to_clarity_revision response w = (inl e, w).
Proof.
  intros Hp. unfold to_clarity_revision, bind, call. rewrite Hp. reflexivity.
Qed.

End BridgeProperties.

Section SinkProperties.

Context {NeedProfile_model : BaseModel NeedProfile.t}.
Context {ComplianceReview_model : BaseModel ComplianceReview.t}.
Context {FinalResponse_model : BaseModel FinalResponse.t}.

(** What [request_more_info] yields for a list of missing items. *)
Lemma request_more_info_parsed
      (response : AgentExecutorResponse) (profile : NeedProfile.t)
      (w : World) :
  model_validate_json (text (agent_run_response response)) = inr profile ->
  request_more_info response w =
  (inr tt,
   {| stdout := stdout w;
      ctx_sent := ctx_sent w;
      ctx_outputs :=
        ctx_outputs w
        ++ [ py "📋 **Necesitamos más información para ayudarte mejor:**"
             ++ NL ++ NL
             ++ join NL (bullets (NeedProfile.missing_info profile))
             ++ NL ++ NL
             ++ py "Por favor, proporciona estos datos para poder ofrecerte las mejores opciones del Banco Sabadell." ] |}).
Proof.
  intros Hp. unfold request_more_info, bind, call, yield_output.
  rewrite Hp. reflexivity.
Qed.

(** X5.  On a response whose text is a well-formed NeedProfile,
    [request_more_info] yields exactly one output and sends and prints
    nothing; every missing item is in the output as a bullet.  It does
    not look at whether anything is missing: with an empty list the
    output is the two fixed sentences around an empty listing. *)
Theorem request_more_info_lists_items
        (response : AgentExecutorResponse) (profile : NeedProfile.t)
        (w : World) :
  model_validate_json (text (agent_run_response response)) = inr profile ->
  exists output,
    request_more_info response w =
    (inr tt,
     {| stdout := stdout w;
        ctx_sent := ctx_sent w;
        ctx_outputs := ctx_outputs w ++ [output] |}) /\
    (forall item,
        In item (NeedProfile.missing_info profile) ->
        contains (py "- " ++ item) output) /\
    (NeedProfile.missing_info profile = [] ->
     output =
     py "📋 **Necesitamos más información para ayudarte mejor:**"
     ++ NL ++ NL ++ NL ++ NL
     ++ py "Por favor, proporciona estos datos para poder ofrecerte las mejores opciones del Banco Sabadell.").
Proof.
  intros Hp. eexists. split; [exact (request_more_info_parsed _ w Hp) | ].
  split.
  - intros item Hin. do 3 apply contains_app_r. apply contains_app_l.
    apply contains_join. unfold bullets.
    apply in_map with (f := fun it => py "- " ++ it). exact Hin.
  - intros Hnil. rewrite Hnil. vm_compute. reflexivity.
Qed.

(** X6.  When no missing item holds a line feed, the output of
    [request_more_info] has one line per item between its two fixed
    sentences: with [n] items, [n >= 1], it holds [n + 3] line feeds
    (two after the first sentence, one between consecutive items, two
    before the last sentence); with no item it holds the four line
    feeds around the empty listing. *)
Theorem request_more_info_line_per_item
        (response : AgentExecutorResponse) (profile : NeedProfile.t)
        (w : World) :
  model_validate_json (text (agent_run_response response)) = inr profile ->
  Forall (fun item => line_feeds item = 0) (NeedProfile.missing_info profile) ->
  exists output,
    ctx_outputs (snd (request_more_info response w))
    = ctx_outputs w ++ [output] /\
    line_feeds output
    = match NeedProfile.missing_info profile with
      | [] => 4
      | _ :: _ => length (NeedProfile.missing_info profile) + 3
      end.
Proof.
  intros Hp Hclean. eexists.
  rewrite (request_more_info_parsed _ w Hp). split; [reflexivity | ].
  rewrite !line_feeds_app, (line_feeds_listing Hclean).
  change (line_feeds NL) with 1.
  match goal with
  | |- line_feeds ?h + _ = _ =>
      replace (line_feeds h) with 0 by (vm_compute; reflexivity)
  end.
  match goal with
  | |- context [line_feeds (py ?f)] =>
      replace (line_feeds (py f)) with 0 by (vm_compute; reflexivity)
  end.
  destruct (NeedProfile.missing_info profile); simpl length; lia.
Qed.

(** X7.  In the fallback of [publish_final_response] the second
    diagnostic line shows at most the first 500 characters of the raw
    text, while the yielded output holds the whole text. *)
Theorem publish_fallback_diagnostic_capped
        (response : AgentExecutorResponse) (e : Exception) (w : World) :
  model_validate_json (T := FinalResponse.t)
    (text (agent_run_response response)) = inl e ->
  exists warning shown rest,
    stdout (snd (publish_final_response response w))
    = stdout w ++ [warning; py "Raw output: " ++ shown] /\
    text (agent_run_response response) = shown ++ rest /\
    length shown = Nat.min 500 (length (text (agent_run_response response))) /\
    ctx_outputs (snd (publish_final_response response w))
    = ctx_outputs w
      ++ [final_header ++ text (agent_run_response response)].
Proof.
  intros Hp.
  unfold publish_final_response, try_except, bind, call, print, yield_output.
  rewrite Hp. simpl.
  eexists. exists (slice_to 500 (text (agent_run_response response))).
  exists (skipn 500 (text (agent_run_response response))).
  split; [rewrite <- app_assoc; reflexivity | ].
  split; [symmetry; apply firstn_skipn | ].
  split; [apply length_firstn | reflexivity].
Qed.

End SinkProperties.

Section GuardProperties.

Context {NeedProfile_model : BaseModel NeedProfile.t}.
Context {ComplianceReview_model : BaseModel ComplianceReview.t}.

(** X8.  The conditions never send a message or yield an output, and
    three of them never print.  [has_complete_info_condition] prints at
    most one line, and only for a response whose text does not decode. *)
Theorem conditions_leave_context (message : Any) (w : World) :
  snd (approved_condition message w) = w /\
  snd (rejected_condition message w) = w /\
  snd (missing_info_condition message w) = w /\
  exists diagnostics,
    snd (has_complete_info_condition message w)
    = {| stdout := stdout w ++ diagnostics;
         ctx_sent := ctx_sent w;
         ctx_outputs := ctx_outputs w |} /\
    (diagnostics = [] \/
     exists response e,
       message = PyResponse response /\
       model_validate_json (T := NeedProfile.t)
         (text (agent_run_response response)) = inl e /\
       diagnostics = [py "Error parsing NeedProfile: " ++ str_of_exception e]).
Proof.
  assert (Hsame : w = {| stdout := stdout w ++ [];
                         ctx_sent := ctx_sent w;
                         ctx_outputs := ctx_outputs w |}).
  { destruct w. simpl. rewrite app_nil_r. reflexivity. }
  destruct message as [ | s | b | request | response ];
    try (repeat split; exists []; split; [exact Hsame | left; reflexivity]).
  rewrite approved_condition_response, rejected_condition_response,
    missing_info_condition_response.
  repeat split.
  destruct (model_validate_json (T := NeedProfile.t)
              (text (agent_run_response response))) as [e | profile] eqn:Hp.
  - rewrite (has_complete_info_condition_unparsed _ _ Hp).
    eexists. split; [reflexivity | ]. right. exists response, e.
    repeat split. exact Hp.
  - rewrite (has_complete_info_condition_parsed _ _ Hp).
    exists []. split; [exact Hsame | left; reflexivity].
Qed.

(** X9.  Reading a verdict back from the conditions: on a response,
    [approved_condition] returns [True] exactly when the text decodes to
    a review with [approved] true, and [rejected_condition] returns
    [True] exactly when it decodes to a review with [approved] false. *)
Theorem review_verdict_read_back
        (response : AgentExecutorResponse) (w : World) :
  (approved_condition (PyResponse response) w = (inr true, w) <->
   exists review,
     model_validate_json (text (agent_run_response response)) = inr review /\
     ComplianceReview.approved review = true) /\
  (rejected_condition (PyResponse response) w = (inr true, w) <->
   exists review,
     model_validate_json (text (agent_run_response response)) = inr review /\
     ComplianceReview.approved review = false).
Proof.
  rewrite approved_condition_response, rejected_condition_response.
  unfold carried.
  destruct (model_validate_json (text (agent_run_response response)))
    as [e | review].
  - split; split; intros H; try discriminate H;
      destruct H as (r & Hr & _); discriminate Hr.
  - split; split.
    + intros H. exists review. split; [reflexivity | congruence].
    + intros (r & Hr & Ha). injection Hr as <-. rewrite Ha. reflexivity.
    + intros H. exists review. split; [reflexivity | ].
      destruct (ComplianceReview.approved review);
        [discriminate H | reflexivity].
    + intros (r & Hr & Ha). injection Hr as <-. rewrite Ha. reflexivity.
Qed.

(** X10.  The guard of the edge into [to_copilot_query] protects it:
    whenever [has_complete_info_condition] returns [True] on a message,
    the message is a response with a complete profile, and
    [to_copilot_query] on it does not raise and sends the query. *)
Theorem has_complete_guard_protects_query (message : Any) (w : World) :
  fst (has_complete_info_condition message w) = inr true ->
  exists response profile,
    message = PyResponse response /\
    model_validate_json (text (agent_run_response response)) = inr profile /\
    NeedProfile.missing_info profile = [] /\
    forall w',
      to_copilot_query response w' =
      (inr tt,
       {| stdout := stdout w';
          ctx_sent :=
            ctx_sent w'
            ++ [ {| messages :=
                      [ChatMessage.mk USER
                         (NeedProfile.structured_query profile)];
                    should_respond := true |} ];
          ctx_outputs := ctx_outputs w' |}).
Proof.
  intros Hguard.
  destruct message as [ | s | b | request | response ];
    try discriminate Hguard.
  destruct (model_validate_json (T := NeedProfile.t)
              (text (agent_run_response response))) as [e | profile] eqn:Hp.
  - rewrite (has_complete_info_condition_unparsed _ _ Hp) in Hguard.
    discriminate Hguard.
  - rewrite (has_complete_info_condition_parsed _ _ Hp) in Hguard.
    simpl in Hguard. exists response, profile.
    split; [reflexivity | ]. split; [first [exact Hp | reflexivity] | ].
    split.
    + apply length_zero_iff_nil. congruence.
    + intros w'. unfold to_copilot_query, bind, call, send_message.
      rewrite Hp. reflexivity.
Qed.

(** X11.  The guard of the edge into [request_more_info] protects it:
    whenever [missing_info_condition] returns [True] on a message, the
    message is a response whose profile misses something, and
    [request_more_info] on it does not raise and yields one output. *)
Theorem missing_info_guard_protects_request (message : Any) (w : World) :
  fst (missing_info_condition message w) = inr true ->
  exists response profile,
    message = PyResponse response /\
    model_validate_json (text (agent_run_response response)) = inr profile /\
    NeedProfile.missing_info profile <> [] /\
    forall w', exists output,
      request_more_info response w' =
      (inr tt,
       {| stdout := stdout w';
          ctx_sent := ctx_sent w';
          ctx_outputs := ctx_outputs w' ++ [output] |}).
Proof.
  intros Hguard.
  destruct message as [ | s | b | request | response ];
    try discriminate Hguard.
  rewrite missing_info_condition_response in Hguard. unfold carried in Hguard.
  destruct (model_validate_json (T := NeedProfile.t)
              (text (agent_run_response response))) as [e | profile] eqn:Hp;
    [discriminate Hguard | ].
  simpl in Hguard. exists response, profile.
  split; [reflexivity | ]. split; [first [exact Hp | reflexivity] | ].
  split.
  - intros Hnil. rewrite Hnil in Hguard. discriminate Hguard.
  - intros w'. unfold request_more_info, bind, call, yield_output.
    rewrite Hp. eexists. reflexivity.
Qed.

(** X12.  The guard of the edge into [to_clarity_revision] protects it:
    whenever [rejected_condition] returns [True] on a response, the text
    decodes to a review that is not approved, and [to_clarity_revision]
    on it does not raise and sends one revision request. *)
Theorem rejected_guard_protects_revision
        (response : AgentExecutorResponse) (w : World) :
  fst (rejected_condition (PyResponse response) w) = inr true ->
  exists review,
    model_validate_json (text (agent_run_response response)) = inr review /\
    ComplianceReview.approved review = false /\
    forall w', exists revision,
      to_clarity_revision response w' =
      (inr tt,
       {| stdout := stdout w';
          ctx_sent :=
            ctx_sent w'
            ++ [ {| messages := [ChatMessage.mk USER revision];
                    should_respond := true |} ];
          ctx_outputs := ctx_outputs w' |}).
Proof.
  intros Hguard.
  rewrite rejected_condition_response in Hguard. unfold carried in Hguard.
  destruct (model_validate_json (T := ComplianceReview.t)
              (text (agent_run_response response))) as [e | review] eqn:Hp;
    [discriminate Hguard | ].
  simpl in Hguard. exists review. split; [first [exact Hp | reflexivity] | ].
  split.
  - destruct (ComplianceReview.approved review);
      [discriminate Hguard | reflexivity].
  - intros w'. unfold to_clarity_revision, bind, call, send_message.
    rewrite Hp. eexists. reflexivity.
Qed.

End GuardProperties.

Section RoutingProperties.

Context {NeedProfile_model : BaseModel NeedProfile.t}.
Context {ComplianceReview_model : BaseModel ComplianceReview.t}.
Context {ClarityExplanation_model : BaseModel ClarityExplanation.t}.
Context {FinalResponse_model : BaseModel FinalResponse.t}.

(** The routing at the two decision points, by what the response carries. *)
Lemma profiler_targets (response : AgentExecutorResponse) (w : World) :
  enabled_targets (Agent need_profiler) (PyResponse response) w =
  match carried (T := NeedProfile.t) (PyResponse response) with
  | Some profile =>
      match NeedProfile.missing_info profile with
      | [] => [Function ToCopilotQuery]
      | _ :: _ => [Function RequestMoreInfo]
      end
  | None => []
  end.
Proof.
  unfold enabled_targets, edge_enabled.
  cbn -[missing_info_condition has_complete_info_condition carried].
  rewrite missing_info_condition_response.
  unfold carried.
  destruct (model_validate_json (T := NeedProfile.t)
              (text (agent_run_response response))) as [e | profile] eqn:Hp.
  - rewrite (has_complete_info_condition_unparsed _ _ Hp). reflexivity.
  - rewrite (has_complete_info_condition_parsed _ _ Hp).
    destruct (NeedProfile.missing_info profile); reflexivity.
Qed.

Lemma checker_targets (response : AgentExecutorResponse) (w : World) :
  enabled_targets (Agent compliance_checker) (PyResponse response) w =
  match carried (T := ComplianceReview.t) (PyResponse response) with
  | Some review =>
      [if ComplianceReview.approved review then Agent publisher
       else Function ToClarityRevision]
  | None => []
  end.
Proof.
  unfold enabled_targets, edge_enabled.
  cbn -[approved_condition rejected_condition carried].
  rewrite approved_condition_response, rejected_condition_response.
  destruct (carried (PyResponse response)) as [review | ]; [ | reflexivity].
  destruct (ComplianceReview.approved review); reflexivity.
Qed.

(** X13.  After the Need Profiler a well-formed profile takes exactly one
    edge: to [to_copilot_query] when nothing is missing, to
    [request_more_info] otherwise. *)
Theorem profiler_routing
        (response : AgentExecutorResponse) (profile : NeedProfile.t)
        (w : World) :
  model_validate_json (text (agent_run_response response)) = inr profile ->
  enabled_targets (Agent need_profiler) (PyResponse response) w =
  match NeedProfile.missing_info profile with
  | [] => [Function ToCopilotQuery]
  | _ :: _ => [Function RequestMoreInfo]
  end.
Proof.
  intros Hp. rewrite profiler_targets, (carried_response _ Hp). reflexivity.
Qed.

(** X14.  After the Compliance Checker a well-formed review takes exactly
    one edge: to the publisher when approved, to [to_clarity_revision]
    when not. *)
Theorem checker_routing
        (response : AgentExecutorResponse) (review : ComplianceReview.t)
        (w : World) :
  model_validate_json (text (agent_run_response response)) = inr review ->
  enabled_targets (Agent compliance_checker) (PyResponse response) w =
  [if ComplianceReview.approved review then Agent publisher
   else Function ToClarityRevision].
Proof.
  intros Hp. rewrite checker_targets, (carried_response _ Hp). reflexivity.
Qed.

(** X15.  A response takes no edge at a decision point exactly when its
    text does not decode to the record of that point: after the Need
    Profiler when it is no NeedProfile, after the Compliance Checker when
    it is no ComplianceReview.  The graph has no edge for that case. *)
Theorem unparsed_response_dead_end
        (response : AgentExecutorResponse) (w : World) :
  (enabled_targets (Agent need_profiler) (PyResponse response) w = [] <->
   carried (T := NeedProfile.t) (PyResponse response) = None) /\
  (enabled_targets (Agent compliance_checker) (PyResponse response) w = [] <->
   carried (T := ComplianceReview.t) (PyResponse response) = None).
Proof.
  rewrite profiler_targets, checker_targets. split.
  - destruct (carried (PyResponse response)) as [profile | ].
    + destruct (NeedProfile.missing_info profile);
        split; intros H; discriminate H.
    + split; reflexivity.
  - destruct (carried (PyResponse response)) as [review | ].
    + split; intros H; discriminate H.
    + split; reflexivity.
Qed.

(** X16.  No fan-out for responses: whatever executor a response leaves,
    it takes at most one edge. *)
Theorem response_takes_one_edge
        (n : Executor) (response : AgentExecutorResponse) (w : World) :
  length (enabled_targets n (PyResponse response) w) <= 1.
Proof.
  destruct n as [ [ | | | | ] | [ | | | | ] ];
    try (cbn; lia).
  - rewrite profiler_targets.
    destruct (carried (PyResponse response)) as [profile | ]; [ | simpl; lia].
    destruct (NeedProfile.missing_info profile); simpl; lia.
  - rewrite checker_targets.
    destruct (carried (PyResponse response)) as [review | ]; simpl; lia.
Qed.

(** X17.  A message that is not an AgentExecutorResponse is routed
    differently: after the Compliance Checker it takes both edges, to the
    publisher and to [to_clarity_revision]; after the Need Profiler it
    takes none. *)
Theorem non_response_fans_out (message : Any) (w : World) :
  isinstance_AgentExecutorResponse message = false ->
  enabled_targets (Agent compliance_checker) message w
  = [Agent publisher; Function ToClarityRevision] /\
  enabled_targets (Agent need_profiler) message w = [].
Proof.
  intros Hshape.
  destruct message as [ | s | b | request | response ];
    try discriminate Hshape; split; reflexivity.
Qed.

(** X18.  The publisher has a single incoming edge: the edges of the
    graph that enter it are exactly one, the edge out of the Compliance
    Checker guarded by [approved_condition]; and a response takes that
    edge only when its text decodes to an approved review. *)
Theorem publisher_gate :
  in_edges (Agent publisher) = [publisher_edge] /\
  source publisher_edge = Agent compliance_checker /\
  condition publisher_edge = Some approved_condition /\
  forall response w,
    edge_enabled publisher_edge (PyResponse response) w = true ->
    exists review,
      model_validate_json (text (agent_run_response response)) = inr review /\
      ComplianceReview.approved review = true.
Proof.
  split; [reflexivity | ]. split; [reflexivity | ]. split; [reflexivity | ].
  intros response w Hon. unfold edge_enabled, publisher_edge in Hon.
  cbn -[approved_condition] in Hon.
  rewrite approved_condition_response in Hon. unfold carried in Hon.
  destruct (model_validate_json (text (agent_run_response response)))
    as [err | review]; [discriminate Hon | ].
  exists review. split; [reflexivity | exact Hon].
Qed.

(** ** Cycles of the graph *)

Lemma edge_between_rank n m :
  edge_between n m ->
  graph_rank n <= graph_rank m /\
  (in_revision_cycle n = false -> graph_rank n < graph_rank m).
Proof.
  intros (e & Hin & <- & <-). unfold workflow_edges in Hin. simpl in Hin.
  repeat (destruct Hin as [<- | Hin]); try contradiction;
    simpl; split; intros; try discriminate; lia.
Qed.

Lemma path_rank n m : path n m -> graph_rank n <= graph_rank m.
Proof.
  induction 1 as [ n m Hedge | n x m Hedge Hpath IH ].
  - apply edge_between_rank. exact Hedge.
  - apply edge_between_rank in Hedge. lia.
Qed.

Lemma edge_in_graph (e : Edge) :
  In e workflow_edges -> edge_between (source e) (target e).
Proof. intros Hin. exists e. repeat split. exact Hin. Qed.

(** X19.  The revision cycle is the only cycle of the graph: an executor
    can be reached again from itself exactly when it is the Clarity
    Writer, the Compliance Checker or [to_clarity_revision]. *)
Theorem revision_cycle_only_cycle (n : Executor) :
  path n n <-> in_revision_cycle n = true.
Proof.
  split.
  - intros Hloop. destruct (in_revision_cycle n) eqn:Hin; [reflexivity | ].
    exfalso. inversion Hloop as [ ? ? Hedge | ? x ? Hedge Hpath ]; subst.
    + apply edge_between_rank in Hedge. destruct Hedge as [_ Hlt].
      specialize (Hlt Hin). lia.
    + apply edge_between_rank in Hedge. destruct Hedge as [_ Hlt].
      specialize (Hlt Hin). apply path_rank in Hpath. lia.
  - assert (Hwc : edge_between (Agent clarity_writer)
                               (Agent compliance_checker)).
    { apply (edge_in_graph
               (e := add_edge (Agent clarity_writer) (Agent compliance_checker))).
      simpl. tauto. }
    assert (Hcr : edge_between (Agent compliance_checker)
                               (Function ToClarityRevision)).
    { apply (edge_in_graph
               (e := add_edge_if (Agent compliance_checker)
                            (Function ToClarityRevision) rejected_condition)).
      simpl. tauto. }
    assert (Hrw : edge_between (Function ToClarityRevision)
                               (Agent clarity_writer)).
    { apply (edge_in_graph
               (e := add_edge (Function ToClarityRevision) (Agent clarity_writer))).
      simpl. tauto. }
    intros Hin.
    destruct n as [ [ | | | | ] | [ | | | | ] ]; try discriminate Hin.
    + apply path_step with (x := Agent compliance_checker); [exact Hwc | ].
      apply path_step with (x := Function ToClarityRevision); [exact Hcr | ].
      apply path_edge. exact Hrw.
    + apply path_step with (x := Function ToClarityRevision); [exact Hcr | ].
      apply path_step with (x := Agent clarity_writer); [exact Hrw | ].
      apply path_edge. exact Hwc.
    + apply path_step with (x := Agent clarity_writer); [exact Hrw | ].
      apply path_step with (x := Agent compliance_checker); [exact Hwc | ].
      apply path_edge. exact Hcr.
Qed.

End RoutingProperties.

(** ** The schemas of the other models *)

(** X20.  The three other models declare typed fields and nothing else:
    the JSON object holding the fields of a ClarityExplanation, of a
    ComplianceReview or of a FinalResponse decodes to that very record. *)
Theorem models_decode_their_fields
        (c : ClarityExplanation.t) (r : ComplianceReview.t)
        (f : FinalResponse.t) :
  ClarityExplanation_of_json (ClarityExplanation_to_json c) = Some c /\
  ComplianceReview_of_json (ComplianceReview_to_json r) = Some r /\
  FinalResponse_of_json (FinalResponse_to_json f) = Some f.
Proof.
  destruct c as [su pc ca fc], r as [ap iss fb co], f as [fco].
  unfold ClarityExplanation_of_json, ClarityExplanation_to_json,
    ComplianceReview_of_json, ComplianceReview_to_json,
    FinalResponse_of_json, FinalResponse_to_json, Json.field.
  cbn -[Json.all_str map].
  repeat match goal with
         | |- context [str_eqb (py ?a) (py ?b)] =>
             let v := eval vm_compute in (str_eqb (py a) (py b)) in
             change (str_eqb (py a) (py b)) with v
         end.
  cbn -[Json.all_str map].
  rewrite !all_str_strings. repeat split.
Qed.

(** ** The further properties on concrete messages *)

Lemma rejected_review_parses :
  model_validate_json (text (agent_run_response rejected_review_response))
  = inr rejected_review.
Proof. vm_compute. reflexivity. Defined.

Lemma approved_review_parses :
  model_validate_json (text (agent_run_response approved_review_response))
  = inr approved_review.
Proof. vm_compute. reflexivity. Defined.

Lemma complete_profile_parses :
  model_validate_json (text (agent_run_response complete_profile_response))
  = inr complete_profile.
Proof. vm_compute. reflexivity. Defined.

Lemma incomplete_profile_parses :
  model_validate_json (text (agent_run_response incomplete_profile_response))
  = inr incomplete_profile.
Proof. vm_compute. reflexivity. Defined.

Lemma unparsed_response_no_profile :
  model_validate_json (T := NeedProfile.t)
    (text (agent_run_response unparsed_response))
  = inl (ValidationError (py "Invalid JSON")).
Proof. vm_compute. reflexivity. Defined.

Lemma unparsed_response_no_review :
  model_validate_json (T := ComplianceReview.t)
    (text (agent_run_response unparsed_response))
  = inl (ValidationError (py "Invalid JSON")).
Proof. vm_compute. reflexivity. Defined.

Lemma unparsed_response_no_final :
  model_validate_json (T := FinalResponse.t)
    (text (agent_run_response unparsed_response))
  = inl (ValidationError (py "Invalid JSON")).
Proof. vm_compute. reflexivity. Defined.

Lemma to_clarity_revision_keeps_review_witness :
  model_validate_json (text (agent_run_response rejected_review_response))
  = inr rejected_review /\
  exists revision,
    to_clarity_revision rejected_review_response empty_world =
    (inr tt,
     {| stdout := stdout empty_world;
        ctx_sent :=
          ctx_sent empty_world
          ++ [ {| messages := [ChatMessage.mk USER revision];
                  should_respond := true |} ];
        ctx_outputs := ctx_outputs empty_world |}) /\
    (forall issue,
        In issue (ComplianceReview.issues rejected_review) ->
        contains (py "- " ++ issue) revision) /\
    contains (ComplianceReview.feedback rejected_review) revision /\
    ends_with (ComplianceReview.content rejected_review) revision.
Proof.
  split; [exact rejected_review_parses | ].
  exact (to_clarity_revision_keeps_review rejected_review_response
           empty_world rejected_review_parses).
Defined.

Lemma profile_bridges_raise_witness :
  model_validate_json (T := NeedProfile.t)
    (text (agent_run_response unparsed_response))
  = inl (ValidationError (py "Invalid JSON")) /\
  to_copilot_query unparsed_response empty_world
  = (inl (ValidationError (py "Invalid JSON")), empty_world) /\
  request_more_info unparsed_response empty_world
  = (inl (ValidationError (py "Invalid JSON")), empty_world).
Proof.
  split; [exact unparsed_response_no_profile | ].
  exact (profile_bridges_raise unparsed_response empty_world
           unparsed_response_no_profile).
Defined.

Lemma to_clarity_revision_raises_witness :
  model_validate_json (T := ComplianceReview.t)
    (text (agent_run_response unparsed_response))
  = inl (ValidationError (py "Invalid JSON")) /\
  to_clarity_revision unparsed_response empty_world
  = (inl (ValidationError (py "Invalid JSON")), empty_world).
Proof.
  split; [exact unparsed_response_no_review | ].
  exact (to_clarity_revision_raises unparsed_response empty_world
           unparsed_response_no_review).
Defined.

Lemma request_more_info_lists_items_witness :
  model_validate_json (text (agent_run_response incomplete_profile_response))
  = inr incomplete_profile /\
  exists output,
    request_more_info incomplete_profile_response empty_world =
    (inr tt,
     {| stdout := stdout empty_world;
        ctx_sent := ctx_sent empty_world;
        ctx_outputs := ctx_outputs empty_world ++ [output] |}) /\
    (forall item,
        In item (NeedProfile.missing_info incomplete_profile) ->
        contains (py "- " ++ item) output) /\
    (NeedProfile.missing_info incomplete_profile = [] ->
     output =
     py "📋 **Necesitamos más información para ayudarte mejor:**"
     ++ NL ++ NL ++ NL ++ NL
     ++ py "Por favor, proporciona estos datos para poder ofrecerte las mejores opciones del Banco Sabadell.").
Proof.
  split; [exact incomplete_profile_parses | ].
  exact (request_more_info_lists_items incomplete_profile_response
           empty_world incomplete_profile_parses).
Defined.

Lemma two_missing_profile_parses :
  model_validate_json (text (agent_run_response two_missing_profile_response))
  = inr two_missing_profile.
Proof. vm_compute. reflexivity. Defined.

Lemma two_missing_profile_items_clean :
  Forall (fun item => line_feeds item = 0)
         (NeedProfile.missing_info two_missing_profile).
Proof. repeat constructor. Defined.

Lemma request_more_info_line_per_item_witness :
  model_validate_json (text (agent_run_response two_missing_profile_response))
  = inr two_missing_profile /\
  Forall (fun item => line_feeds item = 0)
         (NeedProfile.missing_info two_missing_profile) /\
  exists output,
    ctx_outputs (snd (request_more_info two_missing_profile_response
                                        empty_world))
    = ctx_outputs empty_world ++ [output] /\
    line_feeds output = 5.
Proof.
  split; [exact two_missing_profile_parses | ].
  split; [exact two_missing_profile_items_clean | ].
  exact (request_more_info_line_per_item two_missing_profile_response
           empty_world two_missing_profile_parses
           two_missing_profile_items_clean).
Defined.

Lemma publish_fallback_diagnostic_capped_witness :
  model_validate_json (T := FinalResponse.t)
    (text (agent_run_response unparsed_response))
  = inl (ValidationError (py "Invalid JSON")) /\
  exists warning shown rest,
    stdout (snd (publish_final_response unparsed_response empty_world))
    = stdout empty_world ++ [warning; py "Raw output: " ++ shown] /\
    text (agent_run_response unparsed_response) = shown ++ rest /\
    length shown
    = Nat.min 500 (length (text (agent_run_response unparsed_response))) /\
    ctx_outputs (snd (publish_final_response unparsed_response empty_world))
    = ctx_outputs empty_world
      ++ [final_header ++ text (agent_run_response unparsed_response)].
Proof.
  split; [exact unparsed_response_no_final | ].
  exact (publish_fallback_diagnostic_capped unparsed_response empty_world
           unparsed_response_no_final).
Defined.

Lemma complete_profile_guard :
  fst (has_complete_info_condition (PyResponse complete_profile_response)
                                   empty_world) = inr true.
Proof. vm_compute. reflexivity. Defined.

Lemma has_complete_guard_protects_query_witness :
  fst (has_complete_info_condition (PyResponse complete_profile_response)
                                   empty_world) = inr true /\
  exists response profile,
    PyResponse complete_profile_response = PyResponse response /\
    model_validate_json (text (agent_run_response response)) = inr profile /\
    NeedProfile.missing_info profile = [] /\
    forall w',
      to_copilot_query response w' =
      (inr tt,
       {| stdout := stdout w';
          ctx_sent :=
            ctx_sent w'
            ++ [ {| messages :=
                      [ChatMessage.mk USER
                         (NeedProfile.structured_query profile)];
                    should_respond := true |} ];
          ctx_outputs := ctx_outputs w' |}).
Proof.
  split; [exact complete_profile_guard | ].
  exact (has_complete_guard_protects_query
           (PyResponse complete_profile_response) empty_world
           complete_profile_guard).
Defined.

Lemma incomplete_profile_guard :
  fst (missing_info_condition (PyResponse incomplete_profile_response)
                              empty_world) = inr true.
Proof. vm_compute. reflexivity. Defined.

Lemma missing_info_guard_protects_request_witness :
  fst (missing_info_condition (PyResponse incomplete_profile_response)
                              empty_world) = inr true /\
  exists response profile,
    PyResponse incomplete_profile_response = PyResponse response /\
    model_validate_json (text (agent_run_response response)) = inr profile /\
    NeedProfile.missing_info profile <> [] /\
    forall w', exists output,
      request_more_info response w' =
      (inr tt,
       {| stdout := stdout w';
          ctx_sent := ctx_sent w';
          ctx_outputs := ctx_outputs w' ++ [output] |}).
Proof.
  split; [exact incomplete_profile_guard | ].
  exact (missing_info_guard_protects_request
           (PyResponse incomplete_profile_response) empty_world
           incomplete_profile_guard).
Defined.

Lemma rejected_review_guard :
  fst (rejected_condition (PyResponse rejected_review_response) empty_world)
  = inr true.
Proof. vm_compute. reflexivity. Defined.

Lemma rejected_guard_protects_revision_witness :
  fst (rejected_condition (PyResponse rejected_review_response) empty_world)
  = inr true /\
  exists review,
    model_validate_json (text (agent_run_response rejected_review_response))
    = inr review /\
    ComplianceReview.approved review = false /\
    forall w', exists revision,
      to_clarity_revision rejected_review_response w' =
      (inr tt,
       {| stdout := stdout w';
          ctx_sent :=
            ctx_sent w'
            ++ [ {| messages := [ChatMessage.mk USER revision];
                    should_respond := true |} ];
          ctx_outputs := ctx_outputs w' |}).
Proof.
  split; [exact rejected_review_guard | ].
  exact (rejected_guard_protects_revision rejected_review_response
           empty_world rejected_review_guard).
Defined.

Lemma profiler_routing_witness :
  model_validate_json (text (agent_run_response incomplete_profile_response))
  = inr incomplete_profile /\
  enabled_targets (Agent need_profiler)
                  (PyResponse incomplete_profile_response) empty_world
  = [Function RequestMoreInfo].
Proof.
  split; [exact incomplete_profile_parses | ].
  exact (profiler_routing incomplete_profile_response empty_world
           incomplete_profile_parses).
Defined.

Lemma checker_routing_witness :
  model_validate_json (text (agent_run_response approved_review_response))
  = inr approved_review /\
  enabled_targets (Agent compliance_checker)
                  (PyResponse approved_review_response) empty_world
  = [Agent publisher].
Proof.
  split; [exact approved_review_parses | ].
  exact (checker_routing approved_review_response empty_world
           approved_review_parses).
Defined.

Lemma non_response_fans_out_witness :
  isinstance_AgentExecutorResponse (PyStr (py "hola")) = false /\
  enabled_targets (Agent compliance_checker) (PyStr (py "hola")) empty_world
  = [Agent publisher; Function ToClarityRevision] /\
  enabled_targets (Agent need_profiler) (PyStr (py "hola")) empty_world = [].
Proof.
  split; [reflexivity | ].
  exact (non_response_fans_out (PyStr (py "hola")) empty_world eq_refl).
Defined.
